(** * webauthn.io: the authentication service

    A shallow embedding of [_app/homepage/services/authentication.py]
    ([AuthenticationService]) and the properties its specification
    states about it.

    The service is glue around three collaborators:
    - the [webauthn] package (py_webauthn), which generates options and
      verifies responses; it is an interface here ([Webauthn]);
    - [RedisService], the cache that carries the options from the "begin"
      request to the "finish" request;
    - Django's [settings] ([RP_ID], [RP_EXPECTED_ORIGIN]).

    Python raises exceptions, mutates the cache and calls into libraries,
    so a method is a function from the world to a result, the new world
    and the list of effects it performed, in order. *)

From Stdlib Require Import ZArith List Lia.
From Stdlib Require Import Floats.SpecFloat.
From stdpp Require Import base gmap strings list.

Open Scope Z_scope.

Set Warnings "-register-all".

(** ** Python values and exceptions *)

Definition bytes := list Byte.byte.

(** What [json.loads] and friends build: the dynamically typed values the
    service indexes into in [_get_options]. A [dict] keeps insertion order. *)
Inductive pyval :=
| PyNone
| PyBool (b : bool)
| PyInt (z : Z)
| PyStr (s : string)
| PyBytes (b : bytes)
| PyList (l : list pyval)
| PyDict (d : list (string * pyval)).

Inductive exn :=
| InvalidAuthenticationResponse (msg : string)  (* homepage.exceptions *)
| NameError (name : string)
| UnboundLocalError (name : string)
| KeyError (key : string)
| TypeError
| ValueError
| OverflowError
| LibraryError (what : string).  (* raised inside webauthn or pydantic *)

Inductive result (A : Type) :=
| Ok (a : A)
| Raise (e : exn).
Arguments Ok {A} a.
Arguments Raise {A} e.

(** ** Python's numbers, as far as [_save_options] uses them

    [expiration / 1000 * 2] is evaluated on binary64 floats: [/] on two
    [int]s is the correctly rounded quotient, [* 2] converts [2] to
    [2.0], and [int(...)] truncates toward zero. The operations are those
    of the standard library's [SpecFloat] at [prec = 53], [emax = 1024]. *)
Module PyNum.

Definition prec : Z := 53.
Definition emax : Z := 1024.

(** An [int] as an exact (unnormalised) dyadic; the rounding happens in
    the operation that consumes it. *)
Definition exact_of_int (a : Z) : spec_float :=
  match a with
  | Z0 => S754_zero false
  | Zpos p => S754_finite false p 0
  | Zneg p => S754_finite true p 0
  end.

(** [float(a)] *)
Definition float_of_int (a : Z) : result spec_float :=
  match binary_normalize prec emax a 0 false with
  | S754_infinity _ => Raise OverflowError
  | x => Ok x
  end.

(** [a / b] on two [int]s: correctly rounded, [OverflowError] when the
    quotient is out of range ([b] is the literal [1000] in the service). *)
Definition int_truediv (a b : Z) : result spec_float :=
  match SFdiv prec emax (exact_of_int a) (exact_of_int b) with
  | S754_infinity _ => Raise OverflowError
  | x => Ok x
  end.

(** [x * n] for a float [x] and an [int] [n]; an overflowing product is
    [inf], not an exception. *)
Definition float_mul_int (x : spec_float) (n : Z) : result spec_float :=
  match float_of_int n with
  | Ok y => Ok (SFmul prec emax x y)
  | Raise e => Raise e
  end.

(** [int(x)] *)
Definition int_of_float (x : spec_float) : result Z :=
  match x with
  | S754_zero _ => Ok 0
  | S754_finite s m e =>
      let a := match e with
               | Zneg p => Z.pos m / 2 ^ Z.pos p
               | _ => Z.pos m * 2 ^ e
               end in
      Ok (if s then - a else a)
  | S754_infinity _ => Raise OverflowError
  | S754_nan => Raise ValueError
  end.

End PyNum.

(** ** Sequences and dicts *)

(** [xs[i:]] *)
Definition slice_from {A} (i : Z) (xs : list A) : list A :=
  let n := Z.of_nat (length xs) in
  let start := if i <? 0 then Z.max (n + i) 0 else Z.min i n in
  drop (Z.to_nat start) xs.

Fixpoint dict_get (d : list (string * pyval)) (k : string) : option pyval :=
  match d with
  | [] => None
  | (k', v) :: d' => if String.eqb k' k then Some v else dict_get d' k
  end.

(** [d[k] = v]: an existing key keeps its place, a new one goes last. *)
Fixpoint dict_set (d : list (string * pyval)) (k : string) (v : pyval)
  : list (string * pyval) :=
  match d with
  | [] => [(k, v)]
  | (k', v') :: d' =>
      if String.eqb k' k then (k', v) :: d' else (k', v') :: dict_set d' k v
  end.

(** [o[k]] for a string key [k] *)
Definition subscript (o : pyval) (k : string) : result pyval :=
  match o with
  | PyDict d => match dict_get d k with
                | Some v => Ok v
                | None => Raise (KeyError k)
                end
  | _ => Raise TypeError
  end.

(** [o[k] = v] *)
Definition set_item (o : pyval) (k : string) (v : pyval) : result pyval :=
  match o with
  | PyDict d => Ok (PyDict (dict_set d k v))
  | _ => Raise TypeError
  end.

(** What [for cred in o] visits. *)
Definition iterate (o : pyval) : result (list pyval) :=
  match o with
  | PyList l => Ok l
  | PyDict d => Ok (map (λ kv, PyStr kv.1) d)
  | PyStr s =>
      Ok (map (λ c, PyStr (String c EmptyString))
              (String.list_ascii_of_string s))
  | PyBytes b => Ok (map (λ x, PyInt (Z.of_N (Byte.to_N x))) b)
  | _ => Raise TypeError
  end.

(** ** The structures of [webauthn.helpers.structs] and of the service *)

Inductive UserVerificationRequirement := REQUIRED | PREFERRED | DISCOURAGED.

Global Instance UserVerificationRequirement_eq_dec :
  EqDecision UserVerificationRequirement.
Proof. solve_decision. Defined.

(** The members are strings ([class UserVerificationRequirement(str,
    Enum)]): the value of each. *)
Definition requirement_value (uv : UserVerificationRequirement) : string :=
  match uv with
  | REQUIRED => "required"
  | PREFERRED => "preferred"
  | DISCOURAGED => "discouraged"
  end.

Record PublicKeyCredentialDescriptor := {
  descriptor_id : bytes;
  descriptor_transports : list string;
}.

Record PublicKeyCredentialRequestOptions := {
  challenge : bytes;
  timeout : option Z;
  rp_id : option string;
  allow_credentials : list PublicKeyCredentialDescriptor;
  user_verification : option UserVerificationRequirement;
}.

(** The parsed client response; the service only passes it on. *)
Record AuthenticationCredential := {
  raw_id : bytes;
  client_data_json : bytes;
  authenticator_data : bytes;
  signature : bytes;
  user_handle : option bytes;
}.

(** Modelled from the spec: [homepage.models.WebAuthnCredential], the
    stored credential record, is not part of the sources at hand. The spec
    (section 3) gives its fields: identifier and public key, both
    base64url text at rest, the signature counter, the owning username and
    the allowed transports. *)
Record WebAuthnCredential := {
  cred_id : string;
  cred_public_key : string;
  cred_sign_count : Z;
  cred_username : string;
  cred_transports : list string;
}.

(** What the library's verifier returns. *)
Record LibVerifiedAuthentication := {
  lib_credential_id : bytes;
  lib_new_sign_count : Z;
}.

(** The service's own result (lines 25-34). *)
Record VerifiedAuthentication := {
  credential_id : bytes;
  new_sign_count : Z;
  username : string;
}.

(** The keyword arguments of the library's [verify_authentication_response]. *)
Record verify_args := {
  va_credential : AuthenticationCredential;
  va_expected_challenge : bytes;
  va_expected_rp_id : string;
  va_expected_origin : string;
  va_require_user_verification : bool;
  va_credential_public_key : bytes;
  va_credential_current_sign_count : Z;
}.

(** ** The collaborators *)

(** The [webauthn] package. [lib_generate_authentication_options] draws the
    challenge from the operating system's randomness: [seed] stands for
    what it draws. [lib_is_transport s] tells whether [s] is the value of
    a member of the package's [AuthenticatorTransport]. *)
Record Webauthn := {
  lib_generate_authentication_options :
    forall (seed : N) (rp : string) (uv : UserVerificationRequirement)
           (allow : list PublicKeyCredentialDescriptor),
      result PublicKeyCredentialRequestOptions;
  lib_options_to_json : PublicKeyCredentialRequestOptions -> string;
  lib_verify_authentication_response :
    verify_args -> result LibVerifiedAuthentication;
  lib_base64url_to_bytes : pyval -> result bytes;
  lib_parse_authentication_credential_json :
    pyval -> result AuthenticationCredential;
  lib_parse_obj : pyval -> result PublicKeyCredentialRequestOptions;
  lib_is_transport : string -> bool;
}.

(** [django.conf.settings] *)
Record Settings := {
  RP_ID : string;
  RP_EXPECTED_ORIGIN : string;
}.

(** The module's global names. The import block (lines 1-22) binds
    [base64url_to_bytes] and [parse_authentication_credential_json] from
    [webauthn.helpers], and nothing binds [json_loads_base64url_to_bytes],
    the name line 143 calls. Python resolves a global when the call is
    executed, so the binding is part of the run: [None] is the module as it
    is written, [Some f] the module with the name bound to [f]. *)
Record Globals := {
  json_loads_base64url_to_bytes : option (string -> result pyval);
}.

Definition as_written : Globals :=
  {| json_loads_base64url_to_bytes := None |}.

(** ** The world: the cache and the randomness still to be drawn *)

(** Modelled from the spec: [homepage.services.RedisService] is not part of
    the sources at hand. The spec (section 6) gives its three operations:
    [store(key, value, expirationSeconds)], [retrieve(key) -> text|absent]
    and [delete(key) -> count-removed], on text values, one entry per key.
    An entry is the text with the expiration it was stored with. *)
Record world := {
  cache : gmap string (string * Z);
  seed : N;
}.

Inductive event :=
| CacheStore (key value : string) (expiration_seconds : Z)
| CacheRetrieve (key : string)
| CacheDelete (key : string)
| LibGenerate (rp : string) (uv : UserVerificationRequirement)
              (allow : list PublicKeyCredentialDescriptor)
| LibVerify (args : verify_args).

(** A method: the result (a value or the exception that ended the call),
    the world it leaves and the effects it performed, first to last. *)
Definition M (A : Type) : Type := world -> result A * world * list event.

Definition ret {A} (a : A) : M A := λ w, (Ok a, w, []).

Definition raise {A} (e : exn) : M A := λ w, (Raise e, w, []).

Definition lift {A} (r : result A) : M A := λ w, (r, w, []).

Definition bind {A B} (m : M A) (k : A -> M B) : M B := λ w,
  match m w with
  | (Ok a, w1, t1) => let '(r, w2, t2) := k a w1 in (r, w2, t1 ++ t2)
  | (Raise e, w1, t1) => (Raise e, w1, t1)
  end.

Notation "'let!' x ':=' m 'in' k" := (bind m (λ x, k))
  (at level 10, x name, m at level 100, k at level 200).
Notation "'do!' m 'in' k" := (bind m (λ _, k))
  (at level 10, m at level 100, k at level 200).

(** A list comprehension whose body can raise: the first failure ends it. *)
Fixpoint for_each {A B} (f : A -> M B) (xs : list A) : M (list B) :=
  match xs with
  | [] => ret []
  | x :: xs' => let! y := f x in let! ys := for_each f xs' in ret (y :: ys)
  end.

(** The world with [value] stored under [key]. *)
Definition stored (key value : string) (expiration_seconds : Z) (w : world)
  : world :=
  {| cache := <[key := (value, expiration_seconds)]> (cache w);
     seed := seed w |}.

(** The world once [key] has been deleted from the cache. *)
Definition without (key : string) (w : world) : world :=
  {| cache := delete key (cache w); seed := seed w |}.

(** The world after the library drew its randomness. *)
Definition drawn (w : world) : world :=
  {| cache := cache w; seed := N.succ (seed w) |}.

Definition redis_store (key value : string) (expiration_seconds : Z) : M unit :=
  λ w, (Ok tt, stored key value expiration_seconds w,
        [CacheStore key value expiration_seconds]).

Definition redis_retrieve (key : string) : M (option string) :=
  λ w, (Ok (fst <$> cache w !! key), w, [CacheRetrieve key]).

Definition redis_delete (key : string) : M Z :=
  λ w, (Ok (match cache w !! key with Some _ => 1 | None => 0 end),
        without key w, [CacheDelete key]).

(** ** The service (lines 37-153) *)

Section AuthenticationService.

Context (lib : Webauthn) (settings : Settings) (globals : Globals).

Definition base64url_to_bytes (v : pyval) : M bytes :=
  lift (lib_base64url_to_bytes lib v).

(** Lines 119-126: the expiration the record is stored with. [timeout]
    is [Optional[int]] in the library's structure, so
    [type(expiration) is int] holds exactly when it is not [None]. *)
Definition save_expiration (timeout : option Z) : result Z :=
  match timeout with
  | Some expiration =>
      match PyNum.int_truediv expiration 1000 with
      | Ok q =>
          match PyNum.float_mul_int q 2 with
          | Ok p => PyNum.int_of_float p
          | Raise e => Raise e
          end
      | Raise e => Raise e
      end
  | None => Ok 120
  end.

(** Lines 115-130 *)
Definition _save_options (cache_key : string)
    (options : PublicKeyCredentialRequestOptions) : M unit :=
  let! expiration := lift (save_expiration (timeout options)) in
  redis_store cache_key (lib_options_to_json lib options) expiration.

(** Line 146: [{**cred, "id": base64url_to_bytes(cred["id"])}] *)
Definition decode_credential_id (cred : pyval) : M pyval :=
  match cred with
  | PyDict d =>
      let! i := lift (subscript cred "id") in
      let! b := base64url_to_bytes i in
      ret (PyDict (dict_set d "id" (PyBytes b)))
  | _ => raise TypeError
  end.

(** Lines 140-150: what [_get_options] does with the text it found. The
    first thing is the call of [json_loads_base64url_to_bytes], a global
    name ([Globals]). *)
Definition decode_stored (options : string)
  : M (option PublicKeyCredentialRequestOptions) :=
  match json_loads_base64url_to_bytes globals with
  | None => raise (NameError "json_loads_base64url_to_bytes")
  | Some loads =>
      let! options_json := lift (loads options) in
      let! c := lift (subscript options_json "challenge") in
      let! c := base64url_to_bytes c in
      let! options_json :=
        lift (set_item options_json "challenge" (PyBytes c)) in
      let! creds := lift (subscript options_json "allowCredentials") in
      let! creds := lift (iterate creds) in
      let! creds := for_each decode_credential_id creds in
      let! options_json :=
        lift (set_item options_json "allowCredentials" (PyList creds)) in
      let! parsed := lift (lib_parse_obj lib options_json) in
      ret (Some parsed)
  end.

(** Lines 132-150 *)
Definition _get_options (cache_key : string)
  : M (option PublicKeyCredentialRequestOptions) :=
  let! options := redis_retrieve cache_key in
  match options with
  | None => ret None
  | Some options => decode_stored options
  end.

(** Lines 152-153 *)
Definition _delete_options (cache_key : string) : M Z :=
  redis_delete cache_key.

(** The call into the library's option generator. *)
Definition call_generate (rp : string) (uv : UserVerificationRequirement)
    (allow : list PublicKeyCredentialDescriptor)
  : M PublicKeyCredentialRequestOptions :=
  λ w, (lib_generate_authentication_options lib (seed w) rp uv allow,
        drawn w, [LibGenerate rp uv allow]).

(** The call into the library's verifier. *)
Definition call_verify (args : verify_args) : M LibVerifiedAuthentication :=
  λ w, (lib_verify_authentication_response lib args, w, [LibVerify args]).

(** Lines 54-59: the local [_user_verification] after the [if]/[elif]
    chain; [None] when no branch assigned it. *)
Definition user_verification_local (user_verification : string)
  : option UserVerificationRequirement :=
  if String.eqb user_verification "discouraged" then Some DISCOURAGED
  else if String.eqb user_verification "preferred" then Some PREFERRED
  else if String.eqb user_verification "required" then Some REQUIRED
  else None.

(** Line 65, the constructor [PublicKeyCredentialDescriptor(id=...,
    transports=...)]. The structures of [webauthn.helpers.structs] are
    pydantic models, which validate their fields when they are built:
    every transport has to be the value of a member of
    [AuthenticatorTransport], or the constructor raises
    [ValidationError]. *)
Definition new_descriptor (i : bytes) (transports : list string)
  : M PublicKeyCredentialDescriptor :=
  if forallb (lib_is_transport lib) transports
  then ret {| descriptor_id := i; descriptor_transports := transports |}
  else raise (LibraryError "ValidationError").

(** Lines 65-67: the id is decoded first, then the constructor runs. *)
Definition descriptor_of (cred : WebAuthnCredential)
  : M PublicKeyCredentialDescriptor :=
  let! i := base64url_to_bytes (PyStr (cred_id cred)) in
  new_descriptor i (cred_transports cred).

(** Lines 43-74. The keyword arguments of the call at line 61 are
    evaluated in the order they are written, so the read of
    [_user_verification] comes before the comprehension. *)
Definition generate_authentication_options (cache_key : string)
    (user_verification : string)
    (existing_credentials : list WebAuthnCredential)
  : M PublicKeyCredentialRequestOptions :=
  let _user_verification := user_verification_local user_verification in
  let! uv := match _user_verification with
        | Some uv => ret uv
        | None => raise (UnboundLocalError "_user_verification")
        end in
  let! allow :=
    for_each descriptor_of (slice_from (-64) existing_credentials) in
  let! authentication_options := call_generate (RP_ID settings) uv allow in
  do! _save_options cache_key authentication_options in
  ret authentication_options.

(** Lines 89-93 *)
Definition require_user_verification_of
    (options : PublicKeyCredentialRequestOptions) : bool :=
  match user_verification options with
  | Some uv => bool_decide (uv = REQUIRED)
  | None => false
  end.

(** Lines 76-113 *)
Definition verify_authentication_response (cache_key : string)
    (existing_credential : WebAuthnCredential) (response : pyval)
  : M VerifiedAuthentication :=
  let! credential :=
    lift (lib_parse_authentication_credential_json lib response) in
  let! options := _get_options cache_key in
  match options with
  | None =>
      raise (InvalidAuthenticationResponse
               (String.append "no options for user " cache_key))
  | Some options =>
      let require_user_verification := require_user_verification_of options in
      do! _delete_options cache_key in
      let! public_key :=
        base64url_to_bytes (PyStr (cred_public_key existing_credential)) in
      let! verification := call_verify
        {| va_credential := credential;
           va_expected_challenge := challenge options;
           va_expected_rp_id := RP_ID settings;
           va_expected_origin := RP_EXPECTED_ORIGIN settings;
           va_require_user_verification := require_user_verification;
           va_credential_public_key := public_key;
           va_credential_current_sign_count :=
             cred_sign_count existing_credential |} in
      let confirmed_username := cred_username existing_credential in
      ret {| credential_id := lib_credential_id verification;
             new_sign_count := lib_new_sign_count verification;
             username := confirmed_username |}
  end.

End AuthenticationService.

(** ** What a call can do

    The vocabulary of the statements below: a computation without
    effects, and the runs of the two public methods, each with its
    result, the world it leaves and its effects in order. *)

(** A computation that leaves the world alone and performs no effect:
    all it can do is return or raise. *)
Definition silent {A} (m : M A) : Prop := ∀ w, ∃ r, m w = (r, w, []).

(** [e] seconds is exactly [2 * T / 1000] for [T] milliseconds. *)
Definition exactly_double_seconds (T e : Z) : Prop := 1000 * e = 2 * T.

Section Vocabulary.

Context (lib : Webauthn) (settings : Settings) (globals : Globals).

(** The descriptor line 65 builds from a stored credential. *)
Definition described (cred : WebAuthnCredential)
    (d : PublicKeyCredentialDescriptor) : Prop :=
  lib_base64url_to_bytes lib (PyStr (cred_id cred)) = Ok (descriptor_id d)
  ∧ descriptor_transports d = cred_transports cred.

Definition missing_state (cache_key : string) : exn :=
  InvalidAuthenticationResponse
    (String.append "no options for user " cache_key).

(** The arguments line 97 passes to the library. *)
Definition verifier_arguments (credential : AuthenticationCredential)
    (options : PublicKeyCredentialRequestOptions)
    (existing_credential : WebAuthnCredential) (public_key : bytes)
  : verify_args :=
  {| va_credential := credential;
     va_expected_challenge := challenge options;
     va_expected_rp_id := RP_ID settings;
     va_expected_origin := RP_EXPECTED_ORIGIN settings;
     va_require_user_verification := require_user_verification_of options;
     va_credential_public_key := public_key;
     va_credential_current_sign_count :=
       cred_sign_count existing_credential |}.

(** Lines 107-113, on what the library returned. *)
Definition verified_result (existing_credential : WebAuthnCredential)
    (r : result LibVerifiedAuthentication) : result VerifiedAuthentication :=
  match r with
  | Ok verification =>
      Ok {| credential_id := lib_credential_id verification;
            new_sign_count := lib_new_sign_count verification;
            username := cred_username existing_credential |}
  | Raise e => Raise e
  end.

Inductive finish_run (cache_key : string)
    (existing_credential : WebAuthnCredential) (response : pyval)
    (w : world)
  : result VerifiedAuthentication -> world -> list event -> Prop :=
| finish_malformed e :
    lib_parse_authentication_credential_json lib response = Raise e ->
    finish_run cache_key existing_credential response w (Raise e) w []
| finish_load_raised credential e :
    lib_parse_authentication_credential_json lib response = Ok credential ->
    _get_options lib globals cache_key w
      = (Raise e, w, [CacheRetrieve cache_key]) ->
    finish_run cache_key existing_credential response w
      (Raise e) w [CacheRetrieve cache_key]
| finish_missing credential :
    lib_parse_authentication_credential_json lib response = Ok credential ->
    _get_options lib globals cache_key w
      = (Ok None, w, [CacheRetrieve cache_key]) ->
    finish_run cache_key existing_credential response w
      (Raise (missing_state cache_key)) w [CacheRetrieve cache_key]
| finish_bad_public_key credential options e :
    lib_parse_authentication_credential_json lib response = Ok credential ->
    _get_options lib globals cache_key w
      = (Ok (Some options), w, [CacheRetrieve cache_key]) ->
    lib_base64url_to_bytes lib (PyStr (cred_public_key existing_credential))
      = Raise e ->
    finish_run cache_key existing_credential response w
      (Raise e) (without cache_key w)
      [CacheRetrieve cache_key; CacheDelete cache_key]
| finish_verifier_called credential options public_key :
    lib_parse_authentication_credential_json lib response = Ok credential ->
    _get_options lib globals cache_key w
      = (Ok (Some options), w, [CacheRetrieve cache_key]) ->
    lib_base64url_to_bytes lib (PyStr (cred_public_key existing_credential))
      = Ok public_key ->
    let args :=
      verifier_arguments credential options existing_credential public_key in
    finish_run cache_key existing_credential response w
      (verified_result existing_credential
         (lib_verify_authentication_response lib args))
      (without cache_key w)
      [CacheRetrieve cache_key; CacheDelete cache_key; LibVerify args].

(** The ways a call of [generate_authentication_options] ends. *)
Inductive begin_run (cache_key user_verification : string)
    (existing_credentials : list WebAuthnCredential) (w : world)
  : result PublicKeyCredentialRequestOptions -> world -> list event -> Prop :=
| begin_unbound :
    user_verification_local user_verification = None ->
    begin_run cache_key user_verification existing_credentials w
      (Raise (UnboundLocalError "_user_verification")) w []
| begin_bad_credential_id uv e :
    user_verification_local user_verification = Some uv ->
    for_each (descriptor_of lib) (slice_from (-64) existing_credentials) w
      = (Raise e, w, []) ->
    begin_run cache_key user_verification existing_credentials w
      (Raise e) w []
| begin_generator_raised uv allow e :
    user_verification_local user_verification = Some uv ->
    for_each (descriptor_of lib) (slice_from (-64) existing_credentials) w
      = (Ok allow, w, []) ->
    lib_generate_authentication_options lib (seed w) (RP_ID settings) uv allow
      = Raise e ->
    begin_run cache_key user_verification existing_credentials w
      (Raise e) (drawn w) [LibGenerate (RP_ID settings) uv allow]
| begin_not_stored uv allow options e :
    user_verification_local user_verification = Some uv ->
    for_each (descriptor_of lib) (slice_from (-64) existing_credentials) w
      = (Ok allow, w, []) ->
    lib_generate_authentication_options lib (seed w) (RP_ID settings) uv allow
      = Ok options ->
    save_expiration (timeout options) = Raise e ->
    begin_run cache_key user_verification existing_credentials w
      (Raise e) (drawn w) [LibGenerate (RP_ID settings) uv allow]
| begin_stored uv allow options expiration :
    user_verification_local user_verification = Some uv ->
    for_each (descriptor_of lib) (slice_from (-64) existing_credentials) w
      = (Ok allow, w, []) ->
    lib_generate_authentication_options lib (seed w) (RP_ID settings) uv allow
      = Ok options ->
    save_expiration (timeout options) = Ok expiration ->
    begin_run cache_key user_verification existing_credentials w
      (Ok options)
      (stored cache_key (lib_options_to_json lib options) expiration (drawn w))
      [LibGenerate (RP_ID settings) uv allow;
       CacheStore cache_key (lib_options_to_json lib options) expiration].

End Vocabulary.

(** ** A library and a configuration to run the service on *)

Module Demo.

Definition settings : Settings :=
  {| RP_ID := "webauthn.io"; RP_EXPECTED_ORIGIN := "https://webauthn.io" |}.

Definition challenge_of (seed : N) : bytes :=
  match Byte.of_N (seed mod 256)%N with
  | Some b => [b]
  | None => []
  end.

(** A stand-in for py_webauthn. It accepts a response that is a [dict]
    with an ["id"], reads a text as its bytes, and approves every
    assertion. The text it stores for a record is the record's
    user-verification policy, which is all it reads back. *)
Definition policy_text (uv : option UserVerificationRequirement) : string :=
  match uv with
  | Some REQUIRED => "required"
  | Some PREFERRED => "preferred"
  | Some DISCOURAGED => "discouraged"
  | None => ""
  end.

Definition policy_of_text (s : string) : option UserVerificationRequirement :=
  if String.eqb s "required" then Some REQUIRED
  else if String.eqb s "preferred" then Some PREFERRED
  else if String.eqb s "discouraged" then Some DISCOURAGED
  else None.

Definition loads (text : string) : result pyval :=
  Ok (PyDict [("challenge", PyStr "AQID"); ("allowCredentials", PyList []);
              ("userVerification", PyStr text)]).

Definition parse_obj (o : pyval) : result PublicKeyCredentialRequestOptions :=
  match subscript o "userVerification" with
  | Ok (PyStr s) =>
      Ok {| challenge := []; timeout := Some 60000;
            rp_id := Some "webauthn.io"; allow_credentials := [];
            user_verification := policy_of_text s |}
  | _ => Raise (LibraryError "ValidationError")
  end.

Definition parse_credential (response : pyval)
  : result AuthenticationCredential :=
  match subscript response "id" with
  | Ok _ =>
      Ok {| raw_id := []; client_data_json := []; authenticator_data := [];
            signature := []; user_handle := None |}
  | _ => Raise (LibraryError "InvalidJSONStructure")
  end.

(** The members of [AuthenticatorTransport]. *)
Definition transport_names : list string :=
  ["usb"; "nfc"; "ble"; "internal"; "cable"; "hybrid"].

Definition is_transport (s : string) : bool :=
  existsb (String.eqb s) transport_names.

Definition text_bytes (v : pyval) : result bytes :=
  match v with
  | PyStr s => Ok (String.list_byte_of_string s)
  | _ => Raise TypeError
  end.

Definition lib : Webauthn :=
  {| lib_generate_authentication_options := λ seed rp uv allow,
       Ok {| challenge := challenge_of seed; timeout := Some 60000;
             rp_id := Some rp; allow_credentials := allow;
             user_verification := Some uv |};
     lib_options_to_json := λ o, policy_text (user_verification o);
     lib_verify_authentication_response := λ args,
       Ok {| lib_credential_id := raw_id (va_credential args);
             lib_new_sign_count :=
               va_credential_current_sign_count args + 1 |};
     lib_base64url_to_bytes := text_bytes;
     lib_parse_authentication_credential_json := parse_credential;
     lib_parse_obj := parse_obj;
     lib_is_transport := is_transport |}.

(** The module with line 143's name bound to the stand-in's decoder. *)
Definition bound : Globals :=
  {| json_loads_base64url_to_bytes := Some loads |}.

Definition alice : WebAuthnCredential :=
  {| cred_id := "AQID"; cred_public_key := "BAUG"; cred_sign_count := 7;
     cred_username := "alice"; cred_transports := ["usb"] |}.

(** The [n]-th of a user's credentials, told apart by its counter. *)
Definition nth_credential (n : nat) : WebAuthnCredential :=
  {| cred_id := "AQID"; cred_public_key := "BAUG";
     cred_sign_count := Z.of_nat n; cred_username := "alice";
     cred_transports := ["usb"] |}.

Definition hundred_credentials : list WebAuthnCredential :=
  map nth_credential (seq 0 100).

Definition good_response : pyval := PyDict [("id", PyStr "AQID")].

(** A well-formed response that also carries a username. *)
Definition mallory_response : pyval :=
  PyDict [("id", PyStr "AQID"); ("username", PyStr "mallory")].

(** A response without the fields the parser asks for. *)
Definition bad_response : pyval := PyDict [("username", PyStr "mallory")].

(** Options with the given timeout. *)
Definition options_with_timeout (t : option Z)
  : PublicKeyCredentialRequestOptions :=
  {| challenge := challenge_of 0; timeout := t; rp_id := Some "webauthn.io";
     allow_credentials := []; user_verification := Some PREFERRED |}.

(** The exceptions the runs below end with. *)
Definition no_options : exn :=
  InvalidAuthenticationResponse "no options for user k".
Definition rejected : exn := LibraryError "InvalidJSONStructure".
Definition unbound : exn := NameError "json_loads_base64url_to_bytes".

Definition empty_world : world := {| cache := ∅; seed := 0 |}.

(** The world after a "begin" for [key]: one stored record. *)
Definition pending (key : string) : world :=
  {| cache := {[ key := ("required", 120) ]}; seed := 1 |}.

(** A stricter stand-in: a text whose length is 1 more than a multiple
    of 4 is no base64url text, and an assertion without user verification
    is rejected when verification is required. *)
Definition strict_bytes (v : pyval) : result bytes :=
  match v with
  | PyStr s =>
      if (String.length s mod 4 =? 1)%nat
      then Raise (LibraryError "binascii.Error")
      else Ok (String.list_byte_of_string s)
  | _ => Raise TypeError
  end.

Definition strict_lib : Webauthn :=
  {| lib_generate_authentication_options :=
       lib_generate_authentication_options lib;
     lib_options_to_json := lib_options_to_json lib;
     lib_verify_authentication_response := λ args,
       if va_require_user_verification args
       then Raise (LibraryError "InvalidAuthenticationResponse")
       else lib_verify_authentication_response lib args;
     lib_base64url_to_bytes := strict_bytes;
     lib_parse_authentication_credential_json := parse_credential;
     lib_parse_obj := parse_obj;
     lib_is_transport := is_transport |}.

(** A stored credential whose id and public key do not decode. *)
Definition damaged : WebAuthnCredential :=
  {| cred_id := "AQIDB"; cred_public_key := "BAUGC"; cred_sign_count := 3;
     cred_username := "bob"; cred_transports := [] |}.


(** A decoder that yields a record without its allowed credentials, and
    one that yields an empty record. *)
Definition bare_loads (text : string) : result pyval :=
  Ok (PyDict [("challenge", PyStr "AQID"); ("userVerification", PyStr text)]).

Definition bare : Globals :=
  {| json_loads_base64url_to_bytes := Some bare_loads |}.

Definition empty_loads (text : string) : result pyval := Ok (PyDict []).

Definition hollow : Globals :=
  {| json_loads_base64url_to_bytes := Some empty_loads |}.

(** The world with a record stored for ["k"] and one for ["other"]. *)
Definition two_pending : world :=
  {| cache := {[ "k" := ("required", 120); "other" := ("preferred", 60) ]};
     seed := 2 |}.

End Demo.

(** * Properties *)

(** ** The binary64 arithmetic of [_save_options]

    For a timeout below [2^53] in magnitude the float computation
    [int(expiration / 1000 * 2)] yields the truncated exact quotient:
    the division keeps 53 bits of a quotient whose distance to the next
    half-integer is at least [1/1000], so neither its rounding nor the
    (exact) doubling can move it across an integer. *)

Module PyNumFacts.

Import PyNum.

Lemma digits2_pos_size p : digits2_pos p = Pos.size p.
Proof. induction p; simpl; congruence. Qed.

Lemma Zdigits2_log2 p : Zdigits2 (Z.pos p) = Z.log2 (Z.pos p) + 1.
Proof.
  simpl. rewrite digits2_pos_size. destruct p; simpl; lia.
Qed.

Lemma Zdigits2_unique p n :
  0 < n -> 2 ^ (n - 1) <= Z.pos p < 2 ^ n -> Zdigits2 (Z.pos p) = n.
Proof.
  intros Hn Hp. rewrite Zdigits2_log2.
  rewrite (Z.log2_unique (Z.pos p) (n - 1)); [lia|lia|].
  replace (Z.succ (n - 1)) with n by lia. exact Hp.
Qed.

Lemma Zdigits2_bounds p :
  2 ^ (Zdigits2 (Z.pos p) - 1) <= Z.pos p < 2 ^ Zdigits2 (Z.pos p).
Proof.
  rewrite Zdigits2_log2.
  replace (Z.log2 (Z.pos p) + 1 - 1) with (Z.log2 (Z.pos p)) by lia.
  replace (Z.log2 (Z.pos p) + 1) with (Z.succ (Z.log2 (Z.pos p))) by lia.
  apply Z.log2_spec. lia.
Qed.

Lemma shr_1_spec m r s :
  0 <= m ->
  shr_1 {| shr_m := m; shr_r := r; shr_s := s |}
  = {| shr_m := m / 2; shr_r := Z.odd m; shr_s := r || s |}.
Proof.
  intros Hm. destruct m as [|[p|p|]|p]; try lia; try reflexivity.
  - change (shr_1 _)
      with {| shr_m := Z.pos p; shr_r := true; shr_s := r || s |}.
    f_equal. rewrite Pos2Z.inj_xI. apply Z.div_unique with 1; lia.
  - change (shr_1 _)
      with {| shr_m := Z.pos p; shr_r := false; shr_s := r || s |}.
    f_equal. rewrite Pos2Z.inj_xO. apply Z.div_unique with 0; lia.
Qed.


Ltac fexp_eq := unfold fexp, SpecFloat.emin, prec, emax; lia.

Lemma round_53 s q e loc :
  2 ^ 52 <= q < 2 ^ 53 -> -1074 <= e -> e + 1 <= 971 ->
  ∃ M E, binary_round_aux prec emax s q e loc = S754_finite s M E
    ∧ 2 ^ 52 <= Z.pos M < 2 ^ 53
    ∧ ((E = e ∧ (Z.pos M = q ∨ Z.pos M = q + 1))
       ∨ (E = e + 1 ∧ 2 * Z.pos M = q + 1)).
Proof.
  intros Hq He1 He2.
  destruct q as [|q|q]; try lia.
  unfold binary_round_aux, shr_fexp.
  rewrite (Zdigits2_unique q 53) by lia.
  replace (fexp prec emax (53 + e) - e) with 0 by fexp_eq.
  unfold shr at 1.
  set (M := round_nearest_even _ _).
  assert (M = Z.pos q ∨ M = Z.pos q + 1) as HM.
  { subst M.
    destruct loc as [|[]];
      cbn [shr_record_of_loc loc_of_shr_record shr_m round_nearest_even];
      try (left; reflexivity); try (right; reflexivity).
    destruct (Z.even (Z.pos q)); [left|right]; reflexivity. }
  clearbody M.
  destruct (Z_lt_dec M (2 ^ 53)) as [Hlt|Hge].
  - destruct M as [|m|m]; try lia.
    rewrite (Zdigits2_unique m 53) by lia.
    replace (fexp prec emax (53 + e) - e) with 0 by fexp_eq.
    simpl. replace (e <=? emax - prec) with true by (unfold emax, prec; lia).
    exists m, e. split; [reflexivity|]. split; [lia|].
    left. split; [reflexivity|lia].
  - assert (M = Z.pos (2 ^ 53)) as -> by lia.
    rewrite (Zdigits2_unique (2 ^ 53) 54) by lia.
    replace (fexp prec emax (54 + e) - e) with 1 by fexp_eq.
    unfold shr_record_of_loc, shr. cbv [SpecFloat.iter_pos].
    rewrite shr_1_spec by lia. cbn [shr_m].
    change (Z.pos (2 ^ 53) / 2) with (Z.pos (2 ^ 52)). cbv iota beta.
    replace (e + 1 <=? emax - prec) with true by (unfold emax, prec; lia).
    exists (2 ^ 52)%positive, (e + 1). split; [reflexivity|].
    split; [lia|]. right. lia.
Qed.

Lemma round_54 s q e loc :
  2 ^ 53 <= q < 2 ^ 54 - 2 -> -1074 <= e -> e + 1 <= 971 ->
  ∃ M, binary_round_aux prec emax s q e loc = S754_finite s M (e + 1)
    ∧ 2 ^ 52 <= Z.pos M < 2 ^ 53
    ∧ (Z.pos M = q / 2 ∨ (Z.pos M = q / 2 + 1 ∧ Z.odd q = true)).
Proof.
  intros Hq He1 He2.
  destruct q as [|q|q]; try lia.
  unfold binary_round_aux, shr_fexp.
  rewrite (Zdigits2_unique q 54) by lia.
  replace (fexp prec emax (54 + e) - e) with 1 by fexp_eq.
  unfold shr at 1. cbv [SpecFloat.iter_pos].
  assert (∃ r t, shr_record_of_loc (Z.pos q) loc
                 = {| shr_m := Z.pos q; shr_r := r; shr_s := t |})
    as (r & t & ->).
  { destruct loc as [|[]]; simpl; eauto. }
  rewrite shr_1_spec by lia. cbn [shr_m].
  set (M := round_nearest_even _ _).
  assert (M = Z.pos q / 2
          ∨ (M = Z.pos q / 2 + 1 ∧ Z.odd (Z.pos q) = true)) as HM.
  { subst M. unfold loc_of_shr_record, round_nearest_even.
    destruct (Z.odd (Z.pos q)), (r || t);
      try (left; reflexivity); try (right; split; reflexivity).
    destruct (Z.even _); [left; reflexivity|right; split; reflexivity]. }
  clearbody M.
  assert (2 ^ 52 <= Z.pos q / 2 < 2 ^ 53 - 1) as Hhalf.
  { split.
    - apply Z.div_le_lower_bound; lia.
    - apply Z.div_lt_upper_bound; lia. }
  destruct M as [|m|m]; try lia.
  rewrite (Zdigits2_unique m 53) by lia.
  replace (fexp prec emax (53 + (e + 1)) - (e + 1)) with 0 by fexp_eq.
  unfold shr, shr_record_of_loc. cbn [shr_m].
  replace (e + 1 <=? emax - prec) with true by (unfold emax, prec; lia).
  exists m. split; [reflexivity|]. split; [lia|]. exact HM.
Qed.

(** [x * 2.0] on a normal number only moves the exponent. *)
Lemma mul_two s M E :
  2 ^ 52 <= Z.pos M < 2 ^ 53 -> -1074 <= E -> E + 1 <= 971 ->
  float_mul_int (S754_finite s M E) 2 = Ok (S754_finite s M (E + 1)).
Proof.
  intros HM He1 He2. unfold float_mul_int, float_of_int.
  change (binary_normalize prec emax 2 0 false)
    with (S754_finite false (2 ^ 52) (-51)).
  cbv iota beta. f_equal. unfold SFmul.
  rewrite Pos.mul_comm. rewrite Bool.xorb_false_r.
  unfold binary_round_aux, shr_fexp.
  rewrite (Zdigits2_unique (2 ^ 52 * M) 105) by lia.
  replace (fexp prec emax (105 + (E + -51)) - (E + -51)) with 52 by fexp_eq.
  unfold shr at 1, shr_record_of_loc.
  change (2 ^ 52 * M)%positive with
    (M~0~0~0~0~0~0~0~0~0~0~0~0~0~0~0~0~0~0~0~0~0~0~0~0~0~0
      ~0~0~0~0~0~0~0~0~0~0~0~0~0~0~0~0~0~0~0~0~0~0~0~0~0~0)%positive.
  cbv [SpecFloat.iter_pos shr_1 orb].
  cbn [shr_m loc_of_shr_record round_nearest_even].
  rewrite (Zdigits2_unique M 53) by lia.
  replace (fexp prec emax (53 + (E + -51 + 52)) - (E + -51 + 52)) with 0
    by fexp_eq.
  unfold shr. cbn [shr_m].
  replace (E + -51 + 52 <=? emax - prec) with true by (unfold emax, prec; lia).
  f_equal. lia.
Qed.

Lemma int_of_float_negative_exponent s M E :
  E < 0 ->
  int_of_float (S754_finite s M E)
  = Ok (if s then - (Z.pos M / 2 ^ (- E)) else Z.pos M / 2 ^ (- E)).
Proof. intros HE. destruct E; try lia. reflexivity. Qed.

(** The quotient [a / 1000] before rounding: 63 bits of [a], scaled. *)
Lemma div_1000_core s p :
  let d := Zdigits2 (Z.pos p) in
  d <= 53 ->
  SFdiv prec emax (S754_finite s p 0) (S754_finite false 1000 0)
  = binary_round_aux prec emax s
      (Z.pos p * 2 ^ (63 - d) / 1000) (d - 63)
      (new_location 1000 ((Z.pos p * 2 ^ (63 - d)) mod 1000)).
Proof.
  intros d Hd.
  assert (1 <= d) as Hd1.
  { pose proof (Zdigits2_bounds p) as Hb. fold d in Hb.
    destruct (Z_lt_dec d 1) as [Hlt|]; [|lia].
    assert (2 ^ d <= 2 ^ 0) by (destruct (Z_lt_dec d 0);
      [rewrite Z.pow_neg_r by lia; lia|apply Z.pow_le_mono_r; lia]).
    simpl in *. lia. }
  unfold SFdiv, SFdiv_core_binary. fold d.
  change (Zdigits2 (Z.pos 1000)) with 10.
  replace (Z.min (fexp prec emax (d + 0 - (10 + 0))) (0 - 0)) with (d - 63)
    by fexp_eq.
  replace (0 - 0 - (d - 63)) with (63 - d) by lia.
  rewrite Bool.xorb_false_r.
  destruct (63 - d) as [|n|n] eqn:Hn; try lia.
  rewrite Z.shiftl_mul_pow2 by lia.
  unfold Z.div, Z.modulo.
  destruct (Z.div_eucl (Z.pos p * 2 ^ Z.pos n) (Z.pos 1000)) as [q r].
  reflexivity.
Qed.

(** For an [int] below [2^53] in magnitude, [int(a / 1000 * 2)] is the
    exact quotient [2 * a / 1000] truncated. *)
Lemma double_millis_float (s : bool) (p : positive) :
  Z.pos p < 2 ^ 53 ->
  match int_truediv (if s then Z.neg p else Z.pos p) 1000 with
  | Ok q => match float_mul_int q 2 with
            | Ok x => int_of_float x
            | Raise e => Raise e
            end
  | Raise e => Raise e
  end = Ok (if s then - (Z.pos p / 500) else Z.pos p / 500).
Proof.
  intros Hp. unfold int_truediv.
  replace (exact_of_int (if s then Z.neg p else Z.pos p))
    with (S754_finite s p 0) by (destruct s; reflexivity).
  change (exact_of_int 1000) with (S754_finite false 1000 0).
  pose proof (Zdigits2_bounds p) as Hb.
  set (d := Zdigits2 (Z.pos p)) in *.
  assert (1 <= d <= 53) as Hd.
  { split.
    - destruct (Z_lt_dec d 1) as [Hlt|]; [|lia].
      assert (2 ^ d <= 2 ^ 0) by (destruct (Z_lt_dec d 0);
        [rewrite Z.pow_neg_r by lia; lia|apply Z.pow_le_mono_r; lia]).
      simpl in *. lia.
    - destruct (Z_lt_dec 53 d) as [Hlt|]; [|lia].
      assert (2 ^ 53 <= 2 ^ (d - 1)) by (apply Z.pow_le_mono_r; lia). lia. }
  rewrite div_1000_core by (fold d; lia). fold d.
  set (H2 := 2 ^ (61 - d)).
  assert (256 <= H2) as HH2.
  { change 256 with (2 ^ 8). apply Z.pow_le_mono_r; lia. }
  assert (2 ^ (63 - d) = 4 * H2) as ->.
  { replace (63 - d) with (2 + (61 - d)) by lia.
    rewrite Z.pow_add_r by lia. reflexivity. }
  assert (2 ^ (62 - d) = 2 * H2) as HH.
  { replace (62 - d) with (1 + (61 - d)) by lia.
    rewrite Z.pow_add_r by lia. reflexivity. }
  assert (2 ^ 62 <= Z.pos p * (4 * H2) < 2 ^ 63) as Hscaled.
  { assert (2 ^ (d - 1) * (4 * H2) = 2 ^ 62) as <-.
    { unfold H2. replace (4 * 2 ^ (61 - d)) with (2 ^ (63 - d)).
      - rewrite <- Z.pow_add_r by lia. f_equal. lia.
      - replace (63 - d) with (2 + (61 - d)) by lia.
        rewrite Z.pow_add_r by lia. reflexivity. }
    assert (2 ^ d * (4 * H2) = 2 ^ 63) as Hup.
    { unfold H2. replace (4 * 2 ^ (61 - d)) with (2 ^ (63 - d)).
      - rewrite <- Z.pow_add_r by lia. f_equal. lia.
      - replace (63 - d) with (2 + (61 - d)) by lia.
        rewrite Z.pow_add_r by lia. reflexivity. }
    rewrite <- Hup. split.
    - apply Z.mul_le_mono_nonneg_r; lia.
    - apply Z.mul_lt_mono_pos_r; lia. }
  set (q := Z.pos p * (4 * H2) / 1000).
  set (loc := new_location _ _). clearbody loc.
  set (k := Z.pos p / 500).
  set (kH := k * H2).
  (* the quotient sits strictly inside the [k]-th block of width [2 * H2] *)
  assert (2 * kH <= q ∧ q + 1 < 2 * kH + 2 * H2) as Hblock.
  { pose proof (Z.div_mod (Z.pos p) 500 ltac:(lia)) as Hk. fold k in Hk.
    pose proof (Z.mod_pos_bound (Z.pos p) 500 ltac:(lia)) as Ht.
    set (t := Z.pos p mod 500) in *.
    pose proof (Z.div_mod (Z.pos p * (4 * H2)) 1000 ltac:(lia)) as Hq.
    fold q in Hq.
    pose proof (Z.mod_pos_bound (Z.pos p * (4 * H2)) 1000 ltac:(lia)) as Hr.
    set (r := (Z.pos p * (4 * H2)) mod 1000) in *.
    assert (Z.pos p * (4 * H2) = 2000 * kH + 4 * (t * H2)) as Hprod.
    { unfold kH. rewrite Hk at 1. ring. }
    assert (0 <= t * H2 <= 499 * H2) as HtH.
    { split; [apply Z.mul_nonneg_nonneg; lia|].
      apply Z.mul_le_mono_nonneg_r; lia. }
    lia. }
  assert (2 ^ 52 <= q < 2 ^ 54 - 2) as Hq.
  { unfold q. split.
    - apply Z.div_le_lower_bound; lia.
    - apply Z.div_lt_upper_bound; lia. }
  assert (∀ M E, 2 ^ 52 <= Z.pos M < 2 ^ 53 -> 
            (E = d - 63 ∧ 2 * kH <= Z.pos M < 2 * kH + 2 * H2)
            ∨ (E = d - 62 ∧ kH <= Z.pos M < kH + H2) ->
            match float_mul_int (S754_finite s M E) 2 with
            | Ok x => int_of_float x
            | Raise e => Raise e
            end = Ok (if s then - k else k)) as Hfinish.
  { intros M E HM HE. rewrite mul_two by lia.
    rewrite int_of_float_negative_exponent by lia.
    assert (Z.pos M / 2 ^ (- (E + 1)) = k) as ->; [|reflexivity].
    destruct HE as [[-> HM']|[-> HM']].
    - replace (- (d - 63 + 1)) with (62 - d) by lia. rewrite HH.
      symmetry. apply Z.div_unique with (Z.pos M - 2 * kH). lia.
      unfold kH. ring.
    - replace (- (d - 62 + 1)) with (61 - d) by lia. fold H2.
      symmetry. apply Z.div_unique with (Z.pos M - kH). lia.
      unfold kH. ring. }
  destruct (Z_lt_dec q (2 ^ 53)) as [Hlt|Hge].
  - destruct (round_53 s q (d - 63) loc) as (M & E & -> & HM & HE);
      [lia|lia|lia|].
    apply Hfinish; [exact HM|]. lia.
  - destruct (round_54 s q (d - 63) loc) as (M & -> & HM & HE);
      [lia|lia|lia|].
    apply Hfinish; [exact HM|]. right. split; [lia|].
    pose proof (Z.div_mod q 2 ltac:(lia)) as Hhalf.
    pose proof (Z.mod_pos_bound q 2 ltac:(lia)) as Hbit.
    destruct HE as [HE|[HE Hodd]]; [lia|].
    apply Z.odd_spec in Hodd as [h Hodd]. lia.
Qed.

End PyNumFacts.

(** ** Reasoning about methods *)

Lemma silent_ret {A} (a : A) : silent (ret a).
Proof. intros w. by exists (Ok a). Qed.

Lemma silent_raise {A} (e : exn) : silent (@raise A e).
Proof. intros w. by exists (Raise e). Qed.

Lemma silent_lift {A} (r : result A) : silent (lift r).
Proof. intros w. by exists r. Qed.

Lemma silent_bind {A B} (m : M A) (k : A -> M B) :
  silent m -> (∀ a, silent (k a)) -> silent (bind m k).
Proof.
  intros Hm Hk w. unfold bind.
  destruct (Hm w) as [[a|e] ->]; [|by exists (Raise e)].
  destruct (Hk a w) as [r ->]. by exists r.
Qed.

Lemma silent_for_each {A B} (f : A -> M B) (xs : list A) :
  (∀ x, silent (f x)) -> silent (for_each f xs).
Proof.
  intros Hf. induction xs as [|x xs IH]; simpl.
  - apply silent_ret.
  - apply silent_bind; [apply Hf|]. intros y.
    apply silent_bind; [apply IH|]. intros ys. apply silent_ret.
Qed.

Lemma bind_lift_Ok {A B} (a : A) (k : A -> M B) w :
  bind (lift (Ok a)) k w = k a w.
Proof. unfold bind, lift. by destruct (k a w) as [[r w'] t]. Qed.

Lemma bind_lift_Raise {A B} (e : exn) (k : A -> M B) w :
  bind (lift (Raise e)) k w = (Raise e, w, []).
Proof. reflexivity. Qed.

(** Sequencing after a silent computation: its outcome decides. *)
Lemma bind_silent {A B} (m : M A) (k : A -> M B) w :
  silent m ->
  (∃ a, m w = (Ok a, w, []) ∧ bind m k w = k a w)
  ∨ (∃ e, m w = (Raise e, w, []) ∧ bind m k w = (Raise e, w, [])).
Proof.
  intros Hm. unfold bind. destruct (Hm w) as [[a|e] Hw]; rewrite Hw.
  - left. exists a. split; [done|]. by destruct (k a w) as [[r w'] t].
  - right. by exists e.
Qed.

(** A property of the outcome that every exception has and every
    continuation establishes holds of the whole sequence. *)
Lemma bind_outcome {A B} (P : result B -> Prop) (m : M A) (k : A -> M B) :
  (∀ e, P (Raise e)) ->
  (∀ a w r w' t, k a w = (r, w', t) -> P r) ->
  ∀ w r w' t, bind m k w = (r, w', t) -> P r.
Proof.
  intros HP Hk w r w' t. unfold bind.
  destruct (m w) as [[[a|e] w1] t1].
  - destruct (k a w1) as [[r2 w2] t2] eqn:E. intros [= <- _ _]. eauto.
  - intros [= <- _ _]. apply HP.
Qed.

Ltac silence :=
  repeat first
    [ apply silent_ret | apply silent_raise | apply silent_lift
    | apply silent_for_each; intros
    | apply silent_bind; [|intros] ].


Lemma without_lookup key w : cache (without key w) !! key = None.
Proof. apply lookup_delete_eq. Qed.

Section Runs.

Context (lib : Webauthn) (settings : Settings) (globals : Globals).

Lemma silent_base64url_to_bytes v : silent (base64url_to_bytes lib v).
Proof. apply silent_lift. Qed.

Lemma silent_decode_credential_id cred :
  silent (decode_credential_id lib cred).
Proof.
  destruct cred; simpl; try apply silent_raise. silence.
Qed.

Lemma silent_descriptor_of cred : silent (descriptor_of lib cred).
Proof.
  unfold descriptor_of, new_descriptor. silence.
  destruct (forallb _ _); silence.
Qed.

(** What lines 65-67 do for one credential. *)
Lemma descriptor_of_eq cred w :
  descriptor_of lib cred w =
  (match lib_base64url_to_bytes lib (PyStr (cred_id cred)) with
   | Ok i =>
       if forallb (lib_is_transport lib) (cred_transports cred)
       then Ok {| descriptor_id := i;
                  descriptor_transports := cred_transports cred |}
       else Raise (LibraryError "ValidationError")
   | Raise e => Raise e
   end, w, []).
Proof.
  unfold descriptor_of, new_descriptor, bind, base64url_to_bytes, lift.
  destruct (lib_base64url_to_bytes lib _); [|reflexivity].
  by destruct (forallb _ _).
Qed.

Lemma get_options_eq key w :
  _get_options lib globals key w =
  match cache w !! key with
  | None => (Ok None, w, [CacheRetrieve key])
  | Some (text, _) =>
      let '(r, w', t) := decode_stored lib globals text w in
      (r, w', CacheRetrieve key :: t)
  end.
Proof.
  unfold _get_options, bind, redis_retrieve.
  by destruct (cache w !! key) as [[text ttl]|].
Qed.

Lemma silent_decode_stored text : silent (decode_stored lib globals text).
Proof.
  unfold decode_stored.
  destruct (json_loads_base64url_to_bytes globals); silence.
  apply silent_decode_credential_id.
Qed.

Lemma decode_stored_not_None text w r w' t :
  decode_stored lib globals text w = (r, w', t) -> r ≠ Ok None.
Proof.
  unfold decode_stored.
  destruct (json_loads_base64url_to_bytes globals) as [loads|];
    [|by intros [= <- _ _]].
  revert w r w' t.
  repeat (apply (bind_outcome (λ r, r ≠ Ok None)); [done|]; intros ?).
  by intros w r w' t [= <- _ _].
Qed.

(** [_get_options] performs one cache read and nothing else. *)
Lemma get_options_run key w :
  ∃ r, _get_options lib globals key w = (r, w, [CacheRetrieve key]).
Proof.
  rewrite get_options_eq.
  destruct (cache w !! key) as [[text ttl]|]; [|by eexists].
  destruct (silent_decode_stored text w) as [r ->]. by exists r.
Qed.

Lemma get_options_absent key w :
  cache w !! key = None ->
  _get_options lib globals key w = (Ok None, w, [CacheRetrieve key]).
Proof. intros H. by rewrite get_options_eq, H. Qed.

Lemma get_options_present key w r w' t :
  is_Some (cache w !! key) ->
  _get_options lib globals key w = (r, w', t) -> r ≠ Ok None.
Proof.
  intros [[text ttl] H]. rewrite get_options_eq, H.
  destruct (decode_stored lib globals text w) as [[r1 w1] t1] eqn:E.
  intros [= <- _ _]. by eapply decode_stored_not_None.
Qed.


Lemma finish_runs cache_key existing_credential response w r w' t :
  verify_authentication_response lib settings globals
    cache_key existing_credential response w = (r, w', t) ->
  finish_run lib settings globals cache_key existing_credential response w
    r w' t.
Proof.
  unfold verify_authentication_response.
  destruct (lib_parse_authentication_credential_json lib response)
    as [credential|e] eqn:Hparse.
  2: { rewrite bind_lift_Raise. intros [= <- <- <-].
       by apply finish_malformed. }
  rewrite bind_lift_Ok. unfold bind at 1.
  destruct (get_options_run cache_key w) as [ro Hget].
  rewrite Hget. destruct ro as [[options|]|e].
  - unfold bind, _delete_options, redis_delete, base64url_to_bytes, lift,
      call_verify, ret.
    destruct (lib_base64url_to_bytes lib _) as [public_key|e] eqn:Hkey.
    + fold (verifier_arguments settings credential options
              existing_credential public_key).
      pose proof (finish_verifier_called lib settings globals cache_key
                    existing_credential response w credential options
                    public_key Hparse Hget Hkey) as Hrun.
      simpl in Hrun.
      destruct (lib_verify_authentication_response lib _) as [v|e];
        simpl in *; by intros [= <- <- <-].
    + intros [= <- <- <-]. by eapply finish_bad_public_key.
  - unfold raise. intros [= <- <- <-]. by eapply finish_missing.
  - intros [= <- <- <-]. by eapply finish_load_raised.
Qed.

Lemma save_options_eq cache_key options w :
  _save_options lib cache_key options w =
  match save_expiration (timeout options) with
  | Ok expiration =>
      (Ok tt,
       stored cache_key (lib_options_to_json lib options) expiration w,
       [CacheStore cache_key (lib_options_to_json lib options) expiration])
  | Raise e => (Raise e, w, [])
  end.
Proof.
  unfold _save_options, bind, lift, redis_store.
  by destruct (save_expiration (timeout options)).
Qed.

(** The comprehension of lines 64-69 keeps the order and the length of
    what it walks over. *)
Lemma for_each_described creds w allow w' t :
  for_each (descriptor_of lib) creds w = (Ok allow, w', t) ->
  Forall2 (described lib) creds allow.
Proof.
  revert allow w' t. induction creds as [|cred creds IH]; simpl.
  - intros allow w' t [= <- _ _]. constructor.
  - intros allow w' t. unfold bind at 1. rewrite descriptor_of_eq.
    destruct (lib_base64url_to_bytes lib (PyStr (cred_id cred)))
      as [i|e] eqn:Hid; [|done].
    destruct (forallb _ _); [|done].
    unfold bind at 1.
    destruct (for_each (descriptor_of lib) creds w) as [[[ds|e] w1] t1] eqn:E;
      [|done].
    simpl. intros [= <- _ _]. constructor; [|by eapply IH].
    by split.
Qed.

(** [xs[-64:]] drops all but the last 64 elements. *)
Lemma slice_last_64 {A} (xs : list A) :
  slice_from (-64) xs = drop (length xs - 64)%nat xs.
Proof. unfold slice_from. simpl. f_equal. lia. Qed.

Lemma begin_runs cache_key user_verification existing_credentials w r w' t :
  generate_authentication_options lib settings
    cache_key user_verification existing_credentials w = (r, w', t) ->
  begin_run lib settings cache_key user_verification existing_credentials w
    r w' t.
Proof.
  unfold generate_authentication_options.
  destruct (user_verification_local user_verification) as [uv|] eqn:Huv.
  2: { intros [= <- <- <-]. by apply begin_unbound. }
  unfold bind at 1, ret at 1. cbn [app].
  destruct (silent_for_each (descriptor_of lib)
              (slice_from (-64) existing_credentials)
              silent_descriptor_of w) as [[allow|e] Hallow].
  2: { unfold bind at 1. rewrite Hallow. intros [= <- <- <-].
       by eapply begin_bad_credential_id. }
  unfold bind at 1. rewrite Hallow. cbn [app].
  unfold bind at 1, call_generate.
  destruct (lib_generate_authentication_options lib (seed w) (RP_ID settings)
              uv allow) as [options|e] eqn:Hgen.
  2: { intros [= <- <- <-]. by eapply begin_generator_raised. }
  unfold bind, ret. rewrite save_options_eq.
  destruct (save_expiration (timeout options)) as [expiration|e] eqn:Hexp.
  - intros [= <- <- <-]. by eapply begin_stored.
  - intros [= <- <- <-]. by eapply begin_not_stored.
Qed.

End Runs.

(** ** Properties of "finish" *)

Section FinishProperties.

Context (lib : Webauthn) (settings : Settings).

(** C10. When the library's parser rejects the client response, the
    call ends with the parser's exception before any cache operation:
    the effect list is empty (no read, no delete) and the world, hence
    the stored record of every key, is the one the call started from. *)
Theorem malformed_response_touches_no_cache globals cache_key
    existing_credential response e w :
  lib_parse_authentication_credential_json lib response = Raise e ->
  verify_authentication_response lib settings globals
    cache_key existing_credential response w = (Raise e, w, []).
Proof.
  intros H. unfold verify_authentication_response.
  by rewrite H, bind_lift_Raise.
Qed.

(** C4, as the code has it. When the cache holds no entry for the key
    and the client response parses, the call raises
    [InvalidAuthenticationResponse] with the message
    ["no options for user <key>"]; the one cache read is its only
    effect (no delete, no call of the verifier) and the world is
    unchanged. *)
Theorem missing_options_fail_fast globals cache_key existing_credential
    response credential w :
  cache w !! cache_key = None ->
  lib_parse_authentication_credential_json lib response = Ok credential ->
  verify_authentication_response lib settings globals
    cache_key existing_credential response w
  = (Raise (InvalidAuthenticationResponse
              (String.append "no options for user " cache_key)),
     w, [CacheRetrieve cache_key]).
Proof.
  intros Hnone Hparse. unfold verify_authentication_response.
  rewrite Hparse, bind_lift_Ok. unfold bind at 1.
  by rewrite get_options_absent.
Qed.

(** C3, on the module as it is written. With an entry stored under the
    key and a response that parses, the call reads the entry and ends
    with [NameError] at line 143: the delete of line 95 and the verifier
    of line 97 are never reached, and the entry stays in the cache. *)
Theorem stored_options_end_in_NameError cache_key existing_credential
    response credential w :
  is_Some (cache w !! cache_key) ->
  lib_parse_authentication_credential_json lib response = Ok credential ->
  verify_authentication_response lib settings as_written
    cache_key existing_credential response w
  = (Raise (NameError "json_loads_base64url_to_bytes"),
     w, [CacheRetrieve cache_key]).
Proof.
  intros [[text ttl] Hsome] Hparse. unfold verify_authentication_response.
  rewrite Hparse, bind_lift_Ok. unfold bind at 1.
  by rewrite get_options_eq, Hsome.
Qed.

(** The order of lines 84-97, for any binding of line 143's name: once
    the options are loaded, the record is deleted, and the verifier is
    called after that or (when the stored public key does not decode) not
    at all. *)
Lemma loaded_options_are_deleted_first globals cache_key existing_credential
    response credential options w r w' t :
  lib_parse_authentication_credential_json lib response = Ok credential ->
  _get_options lib globals cache_key w
    = (Ok (Some options), w, [CacheRetrieve cache_key]) ->
  verify_authentication_response lib settings globals
    cache_key existing_credential response w = (r, w', t) ->
  w' = without cache_key w
  ∧ (t = [CacheRetrieve cache_key; CacheDelete cache_key]
     ∨ ∃ args,
         t = [CacheRetrieve cache_key; CacheDelete cache_key; LibVerify args]).
Proof.
  intros Hparse Hget Hrun. apply finish_runs in Hrun.
  destruct Hrun as [e He|c e _ Hget'|c _ Hget'|c o e _ _ _|c o pk _ _ _ args];
    try congruence.
  - split; [reflexivity|]. by left.
  - split; [reflexivity|]. right. by exists args.
Qed.

(** C5. Whenever a call reaches the verifier, the options were loaded
    from the cache, and the [require_user_verification] argument is
    [true] exactly when their policy is [REQUIRED]; for [PREFERRED],
    [DISCOURAGED] and an unset policy it is [false]. *)
Theorem verifier_flag_iff_required globals cache_key existing_credential
    response w r w' t args :
  verify_authentication_response lib settings globals
    cache_key existing_credential response w = (r, w', t) ->
  LibVerify args ∈ t ->
  ∃ options,
    _get_options lib globals cache_key w
      = (Ok (Some options), w, [CacheRetrieve cache_key])
    ∧ (va_require_user_verification args = true
       ↔ user_verification options = Some REQUIRED)
    ∧ match user_verification options with
      | Some REQUIRED => va_require_user_verification args = true
      | Some PREFERRED | Some DISCOURAGED | None =>
          va_require_user_verification args = false
      end.
Proof.
  intros Hrun Hin. apply finish_runs in Hrun.
  destruct Hrun as [e _|c e _ _|c _ _|c options e _ _ _
                   |c options public_key _ Hget _ args'];
    try (by repeat (apply elem_of_cons in Hin as [[=]|Hin]);
            apply elem_of_nil in Hin).
  repeat (apply elem_of_cons in Hin as [Heq|Hin]; try discriminate).
  2: by apply elem_of_nil in Hin.
  injection Heq as ->. exists options. split; [done|].
  subst args'. unfold verifier_arguments, require_user_verification_of.
  simpl. destruct (user_verification options) as [[]|]; simpl;
    split; try done; split; done.
Qed.

(** C9. The username of a successful call is the one on the stored
    credential record the caller passed in; so two successful calls for
    the same record return the same username, whatever the two client
    responses (and the two worlds and bindings) are. *)
Theorem username_comes_from_stored_credential globals globals' cache_key
    cache_key' existing_credential response response' w w' v v' w1 w1' t t' :
  verify_authentication_response lib settings globals
    cache_key existing_credential response w = (Ok v, w1, t) ->
  verify_authentication_response lib settings globals'
    cache_key' existing_credential response' w' = (Ok v', w1', t') ->
  username v = cred_username existing_credential
  ∧ username v' = username v.
Proof.
  assert (∀ g k resp w0 v0 w2 t0,
            verify_authentication_response lib settings g
              k existing_credential resp w0 = (Ok v0, w2, t0) ->
            username v0 = cred_username existing_credential) as Hone.
  { intros g k resp w0 v0 w2 t0 Hrun. apply finish_runs in Hrun.
    inversion Hrun as [| | | |c options public_key _ _ _ args' Hres];
      subst.
    unfold verified_result in Hres.
    destruct (lib_verify_authentication_response lib _); [|done].
    by injection Hres as <-. }
  intros H1 H2. apply Hone in H1. apply Hone in H2. by rewrite H1, H2.
Qed.


(** X21. For any binding of line 143's name: after a call that reached
    the delete of line 95 for a key, the next call for that key (with no
    "begin" in between) fails without touching the record again: with
    the parser's exception and no cache operation when its response is
    malformed, and otherwise with [InvalidAuthenticationResponse] naming
    the key after one cache read. In neither case is the verifier
    called. *)
Theorem second_finish_fails globals cache_key existing_credential response
    existing_credential' response' w r w1 t :
  verify_authentication_response lib settings globals
    cache_key existing_credential response w = (r, w1, t) ->
  CacheDelete cache_key ∈ t ->
  verify_authentication_response lib settings globals
    cache_key existing_credential' response' w1
  = match lib_parse_authentication_credential_json lib response' with
    | Ok _ =>
        (Raise (InvalidAuthenticationResponse
                  (String.append "no options for user " cache_key)),
         w1, [CacheRetrieve cache_key])
    | Raise e => (Raise e, w1, [])
    end.
Proof.
  intros Hrun Hin. apply finish_runs in Hrun.
  assert (cache w1 !! cache_key = None) as Hgone.
  { destruct Hrun; try apply without_lookup;
      by repeat (apply elem_of_cons in Hin as [[=]|Hin]);
         apply elem_of_nil in Hin. }
  unfold verify_authentication_response.
  destruct (lib_parse_authentication_credential_json lib response')
    as [credential|e].
  - rewrite bind_lift_Ok. unfold bind at 1.
    by rewrite get_options_absent.
  - by rewrite bind_lift_Raise.
Qed.

End FinishProperties.

(** ** Properties of "begin" and of the stored record *)

Section BeginProperties.

Context (lib : Webauthn) (settings : Settings).

(** What line 123 computes for a timeout below [2^53] in magnitude. *)
Lemma save_expiration_truncates T :
  Z.abs T < 2 ^ 53 -> save_expiration (Some T) = Ok (Z.quot (2 * T) 1000).
Proof.
  intros HT. unfold save_expiration. destruct T as [|p|p].
  - reflexivity.
  - rewrite (PyNumFacts.double_millis_float false p) by lia.
    f_equal. rewrite Z.quot_div_nonneg by lia.
    change 1000 with (2 * 500). rewrite Z.div_mul_cancel_l by lia.
    reflexivity.
  - rewrite (PyNumFacts.double_millis_float true p) by lia.
    f_equal. change (2 * Z.neg p) with (- (2 * Z.pos p)).
    rewrite Z.quot_opp_l by lia. rewrite Z.quot_div_nonneg by lia.
    change 1000 with (2 * 500). rewrite Z.div_mul_cancel_l by lia.
    reflexivity.
Qed.

(** C2, as the code has it. With a numeric timeout [T] (milliseconds,
    below [2^53] in magnitude) the record is stored with
    [int(T / 1000 * 2)] seconds, which is [2 * T / 1000] truncated toward
    zero: exactly [2 * T / 1000] if and only if [T] is a multiple of 500.
    Without a timeout the record is stored with 120 seconds. *)
Theorem stored_expiration cache_key options w :
  (∀ T, timeout options = Some T -> Z.abs T < 2 ^ 53) ->
  let expiration :=
    match timeout options with
    | Some T => Z.quot (2 * T) 1000
    | None => 120
    end in
  _save_options lib cache_key options w
  = (Ok tt,
     stored cache_key (lib_options_to_json lib options) expiration w,
     [CacheStore cache_key (lib_options_to_json lib options) expiration])
  ∧ (∀ T, timeout options = Some T ->
       exactly_double_seconds T expiration ↔ T mod 500 = 0).
Proof.
  intros Hbound expiration. split.
  - rewrite save_options_eq. unfold expiration.
    destruct (timeout options) as [T|]; [|reflexivity].
    by rewrite save_expiration_truncates by auto.
  - intros T HT. unfold expiration, exactly_double_seconds. rewrite HT.
    pose proof (Z.quot_rem' (2 * T) 1000) as Hqr.
    pose proof (Z.rem_bound_abs (2 * T) 1000 ltac:(lia)) as Hr.
    pose proof (Z.div_mod T 500 ltac:(lia)) as Hdm.
    pose proof (Z.mod_pos_bound T 500 ltac:(lia)) as Hm.
    lia.
Qed.

(** C6, on the module as it is written. What [_save_options] stored
    cannot be loaded: [_get_options] reads the entry and ends with
    [NameError] at line 143, before the challenge or any credential id is
    decoded. *)
Theorem saved_options_cannot_be_loaded cache_key options w w' t :
  _save_options lib cache_key options w = (Ok tt, w', t) ->
  _get_options lib as_written cache_key w'
  = (Raise (NameError "json_loads_base64url_to_bytes"),
     w', [CacheRetrieve cache_key]).
Proof.
  rewrite save_options_eq.
  destruct (save_expiration (timeout options)) as [expiration|e]; [|done].
  intros [= <- _]. rewrite get_options_eq. unfold stored. simpl.
  by rewrite lookup_insert_eq.
Qed.

(** C7, on the module as it is written. A policy string other than the
    three recognised ones leaves [_user_verification] unassigned, and the
    read of it at line 63 raises [UnboundLocalError]: the call ends there,
    before the option generator is called and before anything is stored. *)
Theorem unrecognized_policy_raises cache_key user_verification
    existing_credentials w :
  user_verification ≠ "discouraged" ->
  user_verification ≠ "preferred" ->
  user_verification ≠ "required" ->
  generate_authentication_options lib settings
    cache_key user_verification existing_credentials w
  = (Raise (UnboundLocalError "_user_verification"), w, []).
Proof.
  intros Hd Hp Hr. unfold generate_authentication_options.
  unfold user_verification_local.
  apply String.eqb_neq in Hd, Hp, Hr. by rewrite Hd, Hp, Hr.
Qed.

(** C8. Whenever "begin" calls the option generator, the descriptors it
    passes are those of the last 64 stored credentials (of all of them
    when there are fewer), one per credential and in the same order; with
    100 credentials these are the credentials after the first 36. *)
Theorem allow_list_is_last_64 cache_key user_verification
    existing_credentials w r w' t rp uv allow :
  generate_authentication_options lib settings
    cache_key user_verification existing_credentials w = (r, w', t) ->
  LibGenerate rp uv allow ∈ t ->
  let used :=
    drop (length existing_credentials - 64)%nat existing_credentials in
  Forall2 (described lib) used allow
  ∧ length used = Nat.min 64 (length existing_credentials)
  ∧ (length existing_credentials = 100%nat ->
     used = drop 36 existing_credentials).
Proof.
  intros Hrun Hin used. apply begin_runs in Hrun.
  assert (Forall2 (described lib) used allow) as Hall.
  { unfold used. rewrite <- slice_last_64.
    destruct Hrun as [_|uv' e _ _|uv' allow' e _ Hallow _
                     |uv' allow' options e _ Hallow _ _
                     |uv' allow' options expiration _ Hallow _ _];
      repeat (apply elem_of_cons in Hin as [Heq|Hin]; try discriminate);
      try (by apply elem_of_nil in Hin);
      injection Heq as -> -> ->; by eapply for_each_described. }
  split; [exact Hall|]. split.
  - unfold used. rewrite length_drop. lia.
  - intros Hlen. unfold used. by rewrite Hlen.
Qed.

(** When the policy is recognised and, for each of the last 64
    credentials, the id decodes and the transports are known to the
    library, "begin" does call the generator, first of all its effects. *)
Lemma begin_calls_generator cache_key user_verification
    existing_credentials uv w :
  user_verification_local user_verification = Some uv ->
  Forall (λ cred,
            (∃ i, lib_base64url_to_bytes lib (PyStr (cred_id cred)) = Ok i)
            ∧ forallb (lib_is_transport lib) (cred_transports cred) = true)
    (slice_from (-64) existing_credentials) ->
  ∃ allow r w' t,
    generate_authentication_options lib settings
      cache_key user_verification existing_credentials w
    = (r, w', LibGenerate (RP_ID settings) uv allow :: t).
Proof.
  intros Huv Hids.
  destruct (generate_authentication_options lib settings cache_key
              user_verification existing_credentials w) as [[r w'] t] eqn:E.
  apply begin_runs in E.
  destruct E as [Hnone|uv' e Huv' Hraise|uv' allow e Huv' _ _
                |uv' allow options e Huv' _ _ _
                |uv' allow options expiration Huv' _ _ _];
    try (rewrite Huv in Huv'; injection Huv' as <-; by eauto).
  - congruence.
  - exfalso. clear Huv Huv'. revert Hraise.
    induction Hids as [|cred creds [[i Hi] Hvalid] _ IH]; simpl; [done|].
    unfold bind at 1. rewrite descriptor_of_eq, Hi, Hvalid.
    unfold bind at 1.
    destruct (for_each (descriptor_of lib) creds w) as [[[ds|e'] w1] t1] eqn:E;
      [done|].
    intros [= -> -> ->]. by apply IH.
Qed.

End BeginProperties.

(** ** The properties at work on the stand-in library *)

Section Instances.

Import Demo.

(** C10 at work: a malformed response against a pending record. *)
Lemma malformed_response_witness :
  lib_parse_authentication_credential_json lib bad_response = Raise rejected
  ∧ verify_authentication_response lib settings as_written
      "k" alice bad_response (pending "k")
    = (Raise rejected, pending "k", []).
Proof.
  split; [reflexivity|].
  apply malformed_response_touches_no_cache. reflexivity.
Defined.

(** C4 at work: a well-formed response and no record. *)
Lemma missing_options_witness :
  cache empty_world !! "k" = None
  ∧ verify_authentication_response lib settings as_written
      "k" alice good_response empty_world
    = (Raise no_options, empty_world, [CacheRetrieve "k"]).
Proof.
  split; [reflexivity|].
  eapply (missing_options_fail_fast lib settings as_written "k" alice
            good_response); reflexivity.
Defined.

(** C4 as stated fails: with no record for the key and a malformed
    response, the call does not end with [InvalidAuthenticationResponse]
    but with the parser's exception, whose message does not name the key. *)
Lemma missing_options_with_malformed_response :
  cache empty_world !! "k" = None
  ∧ verify_authentication_response lib settings as_written
      "k" alice bad_response empty_world
    = (Raise rejected, empty_world, [])
  ∧ ¬ ∃ msg w' t,
        verify_authentication_response lib settings as_written
          "k" alice bad_response empty_world
        = (Raise (InvalidAuthenticationResponse msg), w', t).
Proof.
  split; [reflexivity|]. split; [reflexivity|].
  intros (msg & w' & t & H). discriminate H.
Qed.

(** C3 at work: the pending record survives "finish". *)
Lemma stored_options_witness :
  is_Some (cache (pending "k") !! "k")
  ∧ verify_authentication_response lib settings as_written
      "k" alice good_response (pending "k")
    = (Raise unbound, pending "k", [CacheRetrieve "k"]).
Proof.
  split; [by eexists|].
  eapply (stored_options_end_in_NameError lib settings "k" alice
            good_response); [by eexists|reflexivity].
Defined.

(** C5 at work, with the name of line 143 bound. *)
Lemma verifier_flag_witness :
  ∃ options,
    _get_options lib bound "k" (pending "k")
      = (Ok (Some options), pending "k", [CacheRetrieve "k"])
    ∧ user_verification options = Some REQUIRED.
Proof.
  edestruct (verifier_flag_iff_required lib settings bound "k" alice
               good_response (pending "k")) as (options & Hget & Hiff & _).
  - vm_compute. reflexivity.
  - apply elem_of_cons. right. apply elem_of_cons. right.
    apply elem_of_cons. left. reflexivity.
  - exists options. split; [exact Hget|]. apply Hiff. reflexivity.
Defined.

(** C9 at work: two responses, one of them naming another user. *)
Lemma username_witness :
  ∃ v v' w1 w1' t t',
    verify_authentication_response lib settings bound
      "k" alice good_response (pending "k") = (Ok v, w1, t)
    ∧ verify_authentication_response lib settings bound
        "k" alice mallory_response (pending "k") = (Ok v', w1', t')
    ∧ username v = "alice" ∧ username v' = username v.
Proof.
  do 6 eexists. split; [vm_compute; reflexivity|].
  split; [vm_compute; reflexivity|].
  eapply (username_comes_from_stored_credential lib settings bound bound
            "k" "k" alice good_response mallory_response
            (pending "k") (pending "k")); vm_compute; reflexivity.
Defined.


(** X21 at work, with line 143's name bound: a second well-formed
    "finish" after one that deleted. *)
Lemma second_finish_witness :
  ∃ r w1 t,
    verify_authentication_response lib settings bound
      "k" alice good_response (pending "k") = (r, w1, t)
    ∧ CacheDelete "k" ∈ t
    ∧ verify_authentication_response lib settings bound
        "k" alice good_response w1
      = (Raise no_options, w1, [CacheRetrieve "k"]).
Proof.
  do 3 eexists. split; [vm_compute; reflexivity|].
  assert (CacheDelete "k"
          ∈ (verify_authentication_response lib settings bound
               "k" alice good_response (pending "k")).2) as Hin.
  { apply elem_of_cons. right. apply elem_of_cons. left. reflexivity. }
  split; [exact Hin|].
  exact (second_finish_fails lib settings bound "k" alice good_response
           alice good_response (pending "k") _ _ _ eq_refl Hin).
Defined.

(** C2 at work: the library's default timeout of one minute. *)
Lemma stored_expiration_witness :
  _save_options lib "k" (options_with_timeout (Some 60000)) empty_world
  = (Ok tt, stored "k" "preferred" 120 empty_world,
     [CacheStore "k" "preferred" 120])
  ∧ exactly_double_seconds 60000 120.
Proof.
  destruct (stored_expiration lib "k" (options_with_timeout (Some 60000))
              empty_world) as [Hrun Hexact].
  - intros T [= <-]. vm_compute. reflexivity.
  - split; [exact Hrun|]. apply (Hexact 60000); reflexivity.
Defined.

(** C2 as stated fails: a timeout of a quarter of a second is stored with
    0 seconds, and 0 is not [2 * 250 / 1000]. *)
Lemma quarter_second_timeout_stored_with_zero :
  _save_options lib "k" (options_with_timeout (Some 250)) empty_world
  = (Ok tt, stored "k" "preferred" 0 empty_world,
     [CacheStore "k" "preferred" 0])
  ∧ ¬ exactly_double_seconds 250 0.
Proof.
  split; [vm_compute; reflexivity|]. unfold exactly_double_seconds. lia.
Qed.

(** Beyond [2^53] the binary64 quotient is no longer the exact one. *)
Example expiration_of_a_huge_timeout :
  save_expiration (Some (2 ^ 60 + 1)) = Ok 2305843009213694
  ∧ Z.quot (2 * (2 ^ 60 + 1)) 1000 = 2305843009213693.
Proof. split; vm_compute; reflexivity. Qed.

(** A timeout too large for a float ends the call before the store. *)
Example expiration_overflow :
  _save_options lib "k" (options_with_timeout (Some (10 ^ 400))) empty_world
  = (Raise OverflowError, empty_world, []).
Proof. vm_compute. reflexivity. Qed.

(** C6 at work: store, then load. *)
Lemma saved_options_witness :
  let saved := _save_options lib "k" (options_with_timeout (Some 60000))
                 empty_world in
  saved.1.1 = Ok tt
  ∧ _get_options lib as_written "k" saved.1.2
    = (Raise unbound, saved.1.2, [CacheRetrieve "k"]).
Proof.
  split; [vm_compute; reflexivity|].
  eapply (saved_options_cannot_be_loaded lib "k"
            (options_with_timeout (Some 60000)) empty_world).
  vm_compute. reflexivity.
Defined.

(** C7 at work. *)
Lemma unrecognized_policy_witness :
  generate_authentication_options lib settings "k" "sometimes" [alice]
    empty_world
  = (Raise (UnboundLocalError "_user_verification"), empty_world, []).
Proof. apply unrecognized_policy_raises; discriminate. Defined.

(** C8 at work: of 100 credentials the generator sees the last 64. *)
Lemma allow_list_witness :
  ∃ allow,
    Forall2 (described lib) (drop 36 hundred_credentials) allow
    ∧ length allow = 64%nat
    ∧ (descriptor_id <$> head allow)
      = Some (String.list_byte_of_string "AQID").
Proof.
  edestruct (allow_list_is_last_64 lib settings "k" "preferred"
               hundred_credentials empty_world) as (Hall & Hlen & Hdrop).
  - vm_compute. reflexivity.
  - apply elem_of_cons. left. reflexivity.
  - eexists. split; [exact Hall|]. split; vm_compute; reflexivity.
Defined.

(** The scenario of the spec's section 8, with line 143's name bound:
    "begin" stores the record with 120 seconds, "finish" consumes it, and
    a second "finish" finds nothing. *)
Example ceremony_scenario :
  let began := generate_authentication_options lib settings
                 "k" "required" [alice] empty_world in
  let finished := verify_authentication_response lib settings bound
                    "k" alice good_response began.1.2 in
  let again := verify_authentication_response lib settings bound
                 "k" alice good_response finished.1.2 in
  (snd <$> cache began.1.2 !! "k") = Some 120
  ∧ finished.1.1
    = Ok {| credential_id := []; new_sign_count := 8; username := "alice" |}
  ∧ cache finished.1.2 !! "k" = None
  ∧ again.1.1 = Raise no_options.
Proof. vm_compute. repeat split. Qed.

End Instances.

(** ** More about "begin" *)

Section MoreBegin.

Context (lib : Webauthn) (settings : Settings).

Lemma user_verification_local_value user_verification uv :
  user_verification_local user_verification = Some uv ->
  user_verification = requirement_value uv.
Proof.
  unfold user_verification_local.
  destruct (String.eqb user_verification "discouraged") eqn:Hd.
  { intros [= <-]. by apply String.eqb_eq in Hd. }
  destruct (String.eqb user_verification "preferred") eqn:Hp.
  { intros [= <-]. by apply String.eqb_eq in Hp. }
  destruct (String.eqb user_verification "required") eqn:Hr; [|done].
  intros [= <-]. by apply String.eqb_eq in Hr.
Qed.

(** X1. A successful "begin" returns the options the library generated,
    unchanged, and leaves their JSON text in the cache under the key, with
    the expiration derived from their timeout; its effects are the call
    of the generator and then the one store, and whatever record the key
    held before is replaced. *)
Theorem begin_stores_what_it_returns cache_key user_verification
    existing_credentials w options w' t :
  generate_authentication_options lib settings
    cache_key user_verification existing_credentials w = (Ok options, w', t) ->
  ∃ uv allow expiration,
    lib_generate_authentication_options lib (seed w) (RP_ID settings) uv allow
      = Ok options
    ∧ save_expiration (timeout options) = Ok expiration
    ∧ t = [LibGenerate (RP_ID settings) uv allow;
           CacheStore cache_key (lib_options_to_json lib options) expiration]
    ∧ cache w' !! cache_key
      = Some (lib_options_to_json lib options, expiration).
Proof.
  intros Hrun. apply begin_runs in Hrun.
  inversion Hrun as [| | | |uv allow options' expiration Huv Hallow Hgen Hexp];
    subst.
  exists uv, allow, expiration. repeat split; try done.
  unfold stored. simpl. by rewrite lookup_insert_eq.
Qed.

(** X2. A "begin" that raises, for whatever reason, leaves the whole cache
    as it was and has issued no store: a pending record is not lost to a
    failed attempt. *)
Theorem failed_begin_keeps_cache cache_key user_verification
    existing_credentials w e w' t :
  generate_authentication_options lib settings
    cache_key user_verification existing_credentials w = (Raise e, w', t) ->
  cache w' = cache w ∧ ∀ key value expiration,
    CacheStore key value expiration ∉ t.
Proof.
  intros Hrun. apply begin_runs in Hrun.
  inversion Hrun; subst; (split; [reflexivity|]); intros key value x Hin;
    repeat (apply elem_of_cons in Hin as [[=]|Hin]);
    by apply elem_of_nil in Hin.
Qed.

(** X3. "begin" writes under its own key only: the record of every other
    key is the same before and after, whether the call succeeds or not. *)
Theorem begin_leaves_other_keys cache_key user_verification
    existing_credentials w r w' t other :
  generate_authentication_options lib settings
    cache_key user_verification existing_credentials w = (r, w', t) ->
  other ≠ cache_key ->
  cache w' !! other = cache w !! other.
Proof.
  intros Hrun Hne. apply begin_runs in Hrun.
  inversion Hrun; subst; try reflexivity.
  unfold stored. simpl. by rewrite lookup_insert_ne.
Qed.

(** X4. Credentials before the last 64 are never looked at: "begin" on a
    list and "begin" on its last 64 elements are the same run (the same
    result, world and effects), so an undecodable id among the earlier
    ones cannot make it fail. *)
Theorem begin_reads_last_64_only cache_key user_verification
    existing_credentials w :
  generate_authentication_options lib settings
    cache_key user_verification existing_credentials w
  = generate_authentication_options lib settings
      cache_key user_verification
      (drop (length existing_credentials - 64)%nat existing_credentials) w.
Proof.
  unfold generate_authentication_options.
  rewrite !slice_last_64. rewrite length_drop.
  replace (length existing_credentials - (length existing_credentials - 64)
           - 64)%nat with 0%nat by lia.
  reflexivity.
Qed.

(** X5. Whenever the generator is called, it is called with the relying
    party id of the settings and with the enum member whose value is the
    policy string the caller gave (the comparison is exact, so only the
    three lower-case names get that far). *)
Theorem generator_gets_rp_id_and_policy cache_key user_verification
    existing_credentials w r w' t rp uv allow :
  generate_authentication_options lib settings
    cache_key user_verification existing_credentials w = (r, w', t) ->
  LibGenerate rp uv allow ∈ t ->
  rp = RP_ID settings ∧ user_verification = requirement_value uv.
Proof.
  intros Hrun Hin. apply begin_runs in Hrun.
  destruct Hrun as [_|uv' e _ _|uv' allow' e Huv _ _
                   |uv' allow' options e Huv _ _ _
                   |uv' allow' options expiration Huv _ _ _];
    repeat (apply elem_of_cons in Hin as [Heq|Hin]; try discriminate);
    try (by apply elem_of_nil in Hin);
    injection Heq as -> -> ->; split; try reflexivity;
    by apply user_verification_local_value.
Qed.




(** X7. For a timeout [T] from 0 up to [2^53] milliseconds, the expiration
    the record is stored with is never longer than twice the timeout and
    falls short of it by less than a second; it is 0 seconds exactly when
    the timeout is under half a second. *)
Theorem stored_expiration_bounds cache_key options T w r w' t key value
    expiration :
  timeout options = Some T ->
  0 <= T < 2 ^ 53 ->
  _save_options lib cache_key options w = (r, w', t) ->
  CacheStore key value expiration ∈ t ->
  1000 * expiration <= 2 * T < 1000 * expiration + 1000
  ∧ (expiration = 0 ↔ T < 500).
Proof.
  intros HT Hrange. rewrite save_options_eq, HT.
  rewrite save_expiration_truncates by lia.
  intros [= <- <- <-] Hin.
  apply elem_of_cons in Hin as [[= -> -> ->]|Hin];
    [|by apply elem_of_nil in Hin].
  rewrite Z.quot_div_nonneg by lia.
  pose proof (Z.div_mod (2 * T) 1000 ltac:(lia)) as Hdm.
  pose proof (Z.mod_pos_bound (2 * T) 1000 ltac:(lia)) as Hm.
  lia.
Qed.

End MoreBegin.

(** ** More about "finish" and the stored record *)

Section MoreFinish.

Context (lib : Webauthn) (settings : Settings).

Lemma dict_get_set_ne d k k' v :
  k ≠ k' -> dict_get (dict_set d k v) k' = dict_get d k'.
Proof.
  intros Hne. induction d as [|[k0 v0] d IH]; simpl.
  - by apply String.eqb_neq in Hne as ->.
  - destruct (String.eqb k0 k) eqn:Hk; simpl.
    + apply String.eqb_eq in Hk as ->.
      by apply String.eqb_neq in Hne as ->.
    + by destruct (String.eqb k0 k').
Qed.

(** X8. On the module as it is written no "finish" succeeds, deletes or
    verifies: every call ends with an exception, leaves the world as it
    found it, and has read the cache once at most. *)
Theorem finish_as_written_never_completes cache_key existing_credential
    response w r w' t :
  verify_authentication_response lib settings as_written
    cache_key existing_credential response w = (r, w', t) ->
  (∃ e, r = Raise e) ∧ w' = w
  ∧ (t = [] ∨ t = [CacheRetrieve cache_key]).
Proof.
  intros Hrun. apply finish_runs in Hrun.
  assert (∀ o w1 t1, _get_options lib as_written cache_key w
                     ≠ (Ok (Some o), w1, t1)) as Hnever.
  { intros o w1 t1. rewrite get_options_eq.
    by destruct (cache w !! cache_key) as [[text ttl]|]. }
  destruct Hrun as [e _|c e _ _|c _ _|c o e _ Hget _|c o pk _ Hget _ args];
    try (by apply Hnever in Hget); eauto.
Qed.

(** X9. Whatever line 143's name is bound to, "finish" never stores and
    never touches another key: the record of every other key is the same
    before and after, and the cache it leaves is the one it found, with or
    without the record of its own key. *)
Theorem finish_touches_its_key_only globals cache_key existing_credential
    response w r w' t :
  verify_authentication_response lib settings globals
    cache_key existing_credential response w = (r, w', t) ->
  (cache w' = cache w ∨ cache w' = delete cache_key (cache w))
  ∧ (∀ other, other ≠ cache_key -> cache w' !! other = cache w !! other)
  ∧ (∀ key value expiration, CacheStore key value expiration ∉ t).
Proof.
  intros Hrun. apply finish_runs in Hrun.
  destruct Hrun; (split; [by (left + right)|]); (split; [|]);
    try (intros other Hne; unfold without; simpl;
         by rewrite ?lookup_delete_ne);
    intros key value x Hin;
    repeat (apply elem_of_cons in Hin as [[=]|Hin]);
    by apply elem_of_nil in Hin.
Qed.

(** X10. An exception while the stored record is loaded ends "finish"
    with that exception and leaves the record where it is: only what
    loads is deleted. *)
Theorem load_failure_keeps_record globals cache_key existing_credential
    response credential e w1 t1 w :
  lib_parse_authentication_credential_json lib response = Ok credential ->
  _get_options lib globals cache_key w = (Raise e, w1, t1) ->
  verify_authentication_response lib settings globals
    cache_key existing_credential response w
  = (Raise e, w, [CacheRetrieve cache_key]).
Proof.
  intros Hparse Hget. unfold verify_authentication_response.
  rewrite Hparse, bind_lift_Ok. unfold bind at 1.
  destruct (get_options_run lib globals cache_key w) as [ro Hget'].
  rewrite Hget' in Hget. injection Hget as -> _ _. by rewrite Hget'.
Qed.

(** X11. [_get_options] reads the cache once and changes nothing, and it
    answers [None] exactly when the cache holds no entry for the key: an
    entry, even one with an empty text, is never reported as absent. *)
Theorem get_options_None_iff_absent globals cache_key w r w' t :
  _get_options lib globals cache_key w = (r, w', t) ->
  w' = w ∧ t = [CacheRetrieve cache_key]
  ∧ (r = Ok None ↔ cache w !! cache_key = None).
Proof.
  intros Hget.
  destruct (get_options_run lib globals cache_key w) as [ro Hrun].
  rewrite Hrun in Hget. injection Hget as <- <- <-.
  split; [reflexivity|]. split; [reflexivity|]. split.
  - intros ->. destruct (cache w !! cache_key) eqn:Hc; [|done].
    exfalso. by eapply (get_options_present lib globals cache_key w).
  - intros Hnone. rewrite get_options_absent in Hrun by done.
    by injection Hrun as <-.
Qed.

(** X12. What the verifier is given, whenever it is called: the parsed
    client response, the challenge of the record loaded from the cache,
    the relying party id and origin of the settings, and the public key
    (decoded) and signature counter of the stored credential. Nothing of
    it but the credential comes from the client. *)
Theorem verifier_gets_stored_values globals cache_key existing_credential
    response w r w' t args :
  verify_authentication_response lib settings globals
    cache_key existing_credential response w = (r, w', t) ->
  LibVerify args ∈ t ->
  ∃ options,
    _get_options lib globals cache_key w
      = (Ok (Some options), w, [CacheRetrieve cache_key])
    ∧ lib_parse_authentication_credential_json lib response
      = Ok (va_credential args)
    ∧ va_expected_challenge args = challenge options
    ∧ va_expected_rp_id args = RP_ID settings
    ∧ va_expected_origin args = RP_EXPECTED_ORIGIN settings
    ∧ lib_base64url_to_bytes lib (PyStr (cred_public_key existing_credential))
      = Ok (va_credential_public_key args)
    ∧ va_credential_current_sign_count args
      = cred_sign_count existing_credential.
Proof.
  intros Hrun Hin. apply finish_runs in Hrun.
  destruct Hrun as [e _|c e _ _|c _ _|c options e _ _ _
                   |c options public_key Hparse Hget Hkey args'];
    try (by repeat (apply elem_of_cons in Hin as [[=]|Hin]);
            apply elem_of_nil in Hin).
  repeat (apply elem_of_cons in Hin as [Heq|Hin]; try discriminate).
  2: by apply elem_of_nil in Hin.
  injection Heq as ->. exists options. subst args'. by repeat split.
Qed.

(** X13. Once the verifier is called the record is gone, whatever the
    verifier answers: the effects were the read, the delete and that call,
    in this order; the verifier's exception becomes the call's exception,
    and its answer becomes the result, with the credential id and the new
    signature counter as the verifier gave them. *)
Theorem verifier_is_called_after_delete globals cache_key
    existing_credential response w r w' t args :
  verify_authentication_response lib settings globals
    cache_key existing_credential response w = (r, w', t) ->
  LibVerify args ∈ t ->
  t = [CacheRetrieve cache_key; CacheDelete cache_key; LibVerify args]
  ∧ cache w' = delete cache_key (cache w)
  ∧ match lib_verify_authentication_response lib args with
    | Ok verification =>
        r = Ok {| credential_id := lib_credential_id verification;
                  new_sign_count := lib_new_sign_count verification;
                  username := cred_username existing_credential |}
    | Raise e => r = Raise e
    end.
Proof.
  intros Hrun Hin. apply finish_runs in Hrun.
  destruct Hrun as [e _|c e _ _|c _ _|c options e _ _ _
                   |c options public_key Hparse Hget Hkey args'];
    try (by repeat (apply elem_of_cons in Hin as [[=]|Hin]);
            apply elem_of_nil in Hin).
  repeat (apply elem_of_cons in Hin as [Heq|Hin]; try discriminate).
  2: by apply elem_of_nil in Hin.
  injection Heq as ->. subst args'. split; [reflexivity|].
  split; [reflexivity|]. unfold verified_result.
  by destruct (lib_verify_authentication_response lib _).
Qed.

(** X14. When the record loads but the stored credential's public key
    does not decode, "finish" ends with the decoder's exception after the
    delete: the record is consumed although the verifier was never
    called. *)
Theorem undecodable_public_key_consumes_record globals cache_key
    existing_credential response credential options e w :
  lib_parse_authentication_credential_json lib response = Ok credential ->
  _get_options lib globals cache_key w
    = (Ok (Some options), w, [CacheRetrieve cache_key]) ->
  lib_base64url_to_bytes lib (PyStr (cred_public_key existing_credential))
    = Raise e ->
  verify_authentication_response lib settings globals
    cache_key existing_credential response w
  = (Raise e, without cache_key w,
     [CacheRetrieve cache_key; CacheDelete cache_key]).
Proof.
  intros Hparse Hget Hkey. unfold verify_authentication_response.
  rewrite Hparse, bind_lift_Ok. unfold bind at 1. rewrite Hget.
  unfold bind, _delete_options, redis_delete, base64url_to_bytes, lift.
  by rewrite Hkey.
Qed.

(** X15. A stored record whose decoded JSON has no ["allowCredentials"]
    key cannot be loaded, even with line 143's name bound: after the
    challenge is decoded, line 147 raises [KeyError]. *)
Theorem record_without_allow_credentials globals loads cache_key text
    expiration d c challenge_bytes w :
  json_loads_base64url_to_bytes globals = Some loads ->
  cache w !! cache_key = Some (text, expiration) ->
  loads text = Ok (PyDict d) ->
  dict_get d "challenge" = Some c ->
  lib_base64url_to_bytes lib c = Ok challenge_bytes ->
  dict_get d "allowCredentials" = None ->
  _get_options lib globals cache_key w
  = (Raise (KeyError "allowCredentials"), w, [CacheRetrieve cache_key]).
Proof.
  intros Hg Hc Hloads Hch Hb64 Hallow.
  rewrite get_options_eq, Hc. unfold decode_stored. rewrite Hg, Hloads.
  rewrite bind_lift_Ok. unfold subscript at 1. rewrite Hch, bind_lift_Ok.
  unfold bind at 1, base64url_to_bytes, lift at 1. rewrite Hb64.
  unfold set_item at 1. rewrite bind_lift_Ok.
  unfold subscript at 1. by rewrite dict_get_set_ne, Hallow.
Qed.

(** X16. On the module as it is written a ceremony cannot complete: after
    a successful "begin" for a key, a "finish" for that key with a
    response that parses ends with [NameError], and the record "begin"
    stored is still in the cache. *)
Theorem begin_then_finish_as_written cache_key user_verification
    existing_credentials existing_credential response credential
    w options w1 t :
  generate_authentication_options lib settings
    cache_key user_verification existing_credentials w = (Ok options, w1, t) ->
  lib_parse_authentication_credential_json lib response = Ok credential ->
  ∃ expiration,
    cache w1 !! cache_key = Some (lib_options_to_json lib options, expiration)
    ∧ verify_authentication_response lib settings as_written
        cache_key existing_credential response w1
      = (Raise (NameError "json_loads_base64url_to_bytes"),
         w1, [CacheRetrieve cache_key]).
Proof.
  intros Hbegin Hparse. apply begin_runs in Hbegin.
  inversion Hbegin as [| | | |uv allow options' expiration _ _ _ _]; subst.
  exists expiration.
  assert (cache (stored cache_key (lib_options_to_json lib options)
                   expiration (drawn w)) !! cache_key
          = Some (lib_options_to_json lib options, expiration)) as Hc.
  { unfold stored. simpl. by rewrite lookup_insert_eq. }
  split; [exact Hc|]. unfold verify_authentication_response.
  rewrite Hparse, bind_lift_Ok. unfold bind at 1.
  by rewrite get_options_eq, Hc.
Qed.

End MoreFinish.

(** ** Timeouts too large for a float *)

Module PyNumLarge.

Import PyNum PyNumFacts.

Lemma iter_pos_iter {A} (f : A -> A) p x :
  SpecFloat.iter_pos f p x = Nat.iter (Pos.to_nat p) f x.
Proof.
  revert x. induction p as [p IH|p IH|]; intros x;
    cbn [SpecFloat.iter_pos].
  - rewrite !IH, Pos2Nat.inj_xI, Nat.iter_succ_r.
    replace (2 * Pos.to_nat p)%nat with (Pos.to_nat p + Pos.to_nat p)%nat
      by lia.
    by rewrite Nat.iter_add.
  - rewrite !IH, Pos2Nat.inj_xO.
    replace (2 * Pos.to_nat p)%nat with (Pos.to_nat p + Pos.to_nat p)%nat
      by lia.
    by rewrite Nat.iter_add.
  - reflexivity.
Qed.

Lemma shr_1_m mrs : 0 <= shr_m mrs -> shr_m (shr_1 mrs) = shr_m mrs / 2.
Proof. destruct mrs as [m r s]. intros Hm. by rewrite shr_1_spec. Qed.

Lemma shr_m_iter k mrs :
  0 <= shr_m mrs ->
  shr_m (Nat.iter k shr_1 mrs) = shr_m mrs / 2 ^ Z.of_nat k.
Proof.
  intros Hm. induction k as [|k IH].
  - simpl. by rewrite Z.div_1_r.
  - rewrite Nat.iter_succ, shr_1_m.
    + rewrite IH, Z.div_div by lia.
      rewrite Nat2Z.inj_succ, Z.pow_succ_r by lia. f_equal. lia.
    + rewrite IH. apply Z.div_pos; lia.
Qed.

(** A quotient of 1025 bits or more rounds to infinity. *)
Lemma round_overflows s q loc :
  2 ^ 1024 <= q ->
  ∃ s', binary_round_aux prec emax s q 0 loc = S754_infinity s'.
Proof.
  intros Hq. destruct q as [|q|q]; try lia.
  pose proof (Zdigits2_bounds q) as Hb.
  set (dq := Zdigits2 (Z.pos q)) in *.
  assert (1025 <= dq) as Hdq.
  { destruct (Z_lt_dec dq 1025) as [Hlt|]; [|lia].
    assert (2 ^ dq <= 2 ^ 1024); [|lia].
    destruct (Z_lt_dec dq 0); [rewrite Z.pow_neg_r by lia; lia|].
    apply Z.pow_le_mono_r; lia. }
  unfold binary_round_aux, shr_fexp. fold dq.
  replace (fexp prec emax (dq + 0) - 0) with (dq - 53) by fexp_eq.
  destruct (dq - 53) as [|n|n] eqn:Hn; try lia.
  unfold shr at 1. rewrite iter_pos_iter.
  set (mrs := Nat.iter _ _ _).
  assert (shr_m mrs = Z.pos q / 2 ^ Z.pos n) as Hm.
  { unfold mrs. rewrite shr_m_iter.
    - rewrite positive_nat_Z. by destruct loc as [|[]].
    - by destruct loc as [|[]]. }
  assert (2 ^ 52 <= shr_m mrs < 2 ^ 53) as Hm1.
  { rewrite Hm. 
    assert (2 ^ (dq - 1) = 2 ^ 52 * 2 ^ Z.pos n) as H1.
    { rewrite <- Z.pow_add_r by lia. f_equal. lia. }
    assert (2 ^ dq = 2 ^ 53 * 2 ^ Z.pos n) as H2.
    { rewrite <- Z.pow_add_r by lia. f_equal. lia. }
    assert (0 < 2 ^ Z.pos n) by (apply Z.pow_pos_nonneg; lia).
    split.
    - apply Z.div_le_lower_bound; lia.
    - apply Z.div_lt_upper_bound; lia. }
  set (M := round_nearest_even _ _).
  assert (M = shr_m mrs ∨ M = shr_m mrs + 1) as HM.
  { subst M. unfold round_nearest_even.
    destruct (loc_of_shr_record mrs) as [|[]]; auto.
    destruct (Z.even (shr_m mrs)); auto. }
  clearbody M mrs.
  destruct M as [|m|m]; try lia.
  pose proof (Zdigits2_bounds m) as Hbm.
  set (dm := Zdigits2 (Z.pos m)) in *.
  assert (dm = 53 ∨ dm = 54) as Hdm.
  { assert (52 < dm).
    { destruct (Z_lt_dec 52 dm); [lia|].
      assert (2 ^ dm <= 2 ^ 52); [|lia].
      destruct (Z_lt_dec dm 0); [rewrite Z.pow_neg_r by lia; lia|].
      apply Z.pow_le_mono_r; lia. }
    assert (dm - 1 < 54); [|lia].
    destruct (Z_lt_dec (dm - 1) 54); [lia|].
    assert (2 ^ 54 <= 2 ^ (dm - 1)) by (apply Z.pow_le_mono_r; lia). lia. }
  destruct Hdm as [Hdm|Hdm]; rewrite Hdm.
  - replace (fexp prec emax (53 + (0 + Z.pos n)) - (0 + Z.pos n)) with 0
      by fexp_eq.
    unfold shr, shr_record_of_loc. cbn [shr_m].
    replace (0 + Z.pos n <=? emax - prec) with false
      by (unfold emax, prec; lia).
    by eexists.
  - replace (fexp prec emax (54 + (0 + Z.pos n)) - (0 + Z.pos n)) with 1
      by fexp_eq.
    unfold shr, shr_record_of_loc. cbv [SpecFloat.iter_pos].
    rewrite shr_1_spec by lia. cbn [shr_m].
    assert (0 < Z.pos m / 2) as Hhalf.
    { apply Z.div_str_pos. lia. }
    destruct (Z.pos m / 2) as [|h|h]; try lia.
    replace (0 + Z.pos n + 1 <=? emax - prec) with false
      by (unfold emax, prec; lia).
    by eexists.
Qed.

Lemma int_truediv_overflows T :
  2 ^ 1034 <= Z.abs T -> int_truediv T 1000 = Raise OverflowError.
Proof.
  intros HT. unfold int_truediv.
  assert (∃ s p, exact_of_int T = S754_finite s p 0 ∧ 2 ^ 1034 <= Z.pos p)
    as (s & p & -> & Hp).
  { destruct T as [|p|p]; simpl in HT; try lia.
    - by exists false, p. 
    - by exists true, p. }
  change (exact_of_int 1000) with (S754_finite false 1000 0).
  pose proof (Zdigits2_bounds p) as Hb.
  unfold SFdiv, SFdiv_core_binary.
  set (d := Zdigits2 (Z.pos p)) in *.
  assert (1035 <= d) as Hd.
  { destruct (Z_lt_dec d 1035) as [Hlt|]; [|lia].
    assert (2 ^ d <= 2 ^ 1034); [|lia].
    destruct (Z_lt_dec d 0); [rewrite Z.pow_neg_r by lia; lia|].
    apply Z.pow_le_mono_r; lia. }
  change (Zdigits2 (Z.pos 1000)) with 10.
  replace (Z.min (fexp prec emax (d + 0 - (10 + 0))) (0 - 0)) with 0
    by fexp_eq.
  change (0 - 0 - 0) with 0. cbv iota.
  pose proof (Z.div_mod (Z.pos p) 1000 ltac:(lia)) as Hdm.
  pose proof (Z.mod_pos_bound (Z.pos p) 1000 ltac:(lia)) as Hm.
  unfold Z.div, Z.modulo in *.
  destruct (Z.div_eucl (Z.pos p) (Z.pos 1000)) as [q r].
  destruct (round_overflows (xorb s false) q (new_location 1000 r))
    as [s' ->]; [|reflexivity].
  change (2 ^ 1034) with (1024 * 2 ^ 1024) in Hp. lia.
Qed.

End PyNumLarge.

Section MoreStore.

Context (lib : Webauthn).

(** X17. A timeout of [2^1034] milliseconds or more (in magnitude) is too
    large for the float division of line 123: [_save_options] ends with
    [OverflowError] and nothing is stored. *)
Theorem huge_timeout_is_not_stored cache_key options T w :
  timeout options = Some T ->
  2 ^ 1034 <= Z.abs T ->
  _save_options lib cache_key options w = (Raise OverflowError, w, []).
Proof.
  intros HT Hhuge. rewrite save_options_eq, HT. unfold save_expiration.
  by rewrite PyNumLarge.int_truediv_overflows.
Qed.

End MoreStore.

(** ** What the loader changes in a stored record *)

Section MoreLoad.

Context (lib : Webauthn).

Lemma dict_get_set_eq d k v : dict_get (dict_set d k v) k = Some v.
Proof.
  induction d as [|[k0 v0] d IH]; simpl.
  - by rewrite String.eqb_refl.
  - destruct (String.eqb k0 k) eqn:Hk; simpl; by rewrite Hk.
Qed.

Lemma dict_set_keys d k v :
  is_Some (dict_get d k) -> (dict_set d k v).*1 = d.*1.
Proof.
  induction d as [|[k0 v0] d IH]; simpl.
  - by intros [? [=]].
  - destruct (String.eqb k0 k) eqn:Hk; simpl; [done|].
    intros Hsome. f_equal. by apply IH.
Qed.

Lemma for_each_length {A B} (f : A -> M B) xs w ys w' t :
  for_each f xs w = (Ok ys, w', t) -> length ys = length xs.
Proof.
  revert w ys w' t. induction xs as [|x xs IH]; simpl; intros w ys w' t.
  - by intros [= <- _ _].
  - unfold bind at 1. destruct (f x w) as [[[y|e] w1] t1]; [|done].
    unfold bind at 1.
    destruct (for_each f xs w1) as [[[zs|e] w2] t2] eqn:E; [|done].
    simpl. intros [= <- _ _]. simpl. f_equal. by eapply IH.
Qed.

(** X18. Line 146 rebuilds an allowed-credential entry with only its
    ["id"] changed: the new entry has the same keys in the same order,
    every other value as it was, and under ["id"] the bytes the old value
    decodes to. An entry that is no [dict] or has no ["id"] is refused. *)
Theorem decoded_credential_keeps_other_fields cred cred' w w' t :
  decode_credential_id lib cred w = (Ok cred', w', t) ->
  ∃ d d' i b,
    cred = PyDict d ∧ cred' = PyDict d'
    ∧ dict_get d "id" = Some i
    ∧ lib_base64url_to_bytes lib i = Ok b
    ∧ dict_get d' "id" = Some (PyBytes b)
    ∧ d'.*1 = d.*1
    ∧ ∀ k, k ≠ "id" -> dict_get d' k = dict_get d k.
Proof.
  destruct cred as [| | | | | |d]; try (by intros [=]).
  unfold decode_credential_id, subscript.
  destruct (dict_get d "id") as [i|] eqn:Hid; [|by intros [=]].
  rewrite bind_lift_Ok. unfold bind, base64url_to_bytes, lift, ret.
  destruct (lib_base64url_to_bytes lib i) as [b|e] eqn:Hb; [|by intros [=]].
  intros [= <- _ _]. exists d, (dict_set d "id" (PyBytes b)), i, b.
  repeat split; try done.
  - apply dict_get_set_eq.
  - apply dict_set_keys. by rewrite Hid.
  - intros k Hk. by apply dict_get_set_ne.
Qed.

(** X19. What [_get_options] hands to [parse_obj], whatever decoder line
    143's name is bound to: the decoded JSON object with two entries
    replaced and every other entry as decoded. ["challenge"] holds the
    bytes its text decodes to, and ["allowCredentials"] a list of as many
    entries as before. *)
Theorem loader_changes_two_fields globals loads cache_key text expiration
    options w w' t :
  json_loads_base64url_to_bytes globals = Some loads ->
  cache w !! cache_key = Some (text, expiration) ->
  _get_options lib globals cache_key w = (Ok (Some options), w', t) ->
  ∃ d d' c challenge_bytes creds creds',
    loads text = Ok (PyDict d)
    ∧ lib_parse_obj lib (PyDict d') = Ok options
    ∧ dict_get d "challenge" = Some c
    ∧ lib_base64url_to_bytes lib c = Ok challenge_bytes
    ∧ dict_get d' "challenge" = Some (PyBytes challenge_bytes)
    ∧ (∃ v, dict_get d "allowCredentials" = Some v ∧ iterate v = Ok creds)
    ∧ dict_get d' "allowCredentials" = Some (PyList creds')
    ∧ length creds' = length creds
    ∧ ∀ k, k ≠ "challenge" -> k ≠ "allowCredentials" ->
           dict_get d' k = dict_get d k.
Proof.
  intros Hg Hc. rewrite get_options_eq, Hc. unfold decode_stored.
  rewrite Hg.
  destruct (loads text) as [j|e] eqn:Hloads; [|by intros [=]].
  rewrite bind_lift_Ok.
  destruct j as [| | | | | |d]; try (by intros [=]).
  unfold subscript at 1.
  destruct (dict_get d "challenge") as [c|] eqn:Hch; [|by intros [=]].
  rewrite bind_lift_Ok. unfold bind at 1, base64url_to_bytes, lift at 1.
  destruct (lib_base64url_to_bytes lib c) as [cb|e] eqn:Hcb;
    [|by intros [=]].
  unfold set_item at 1. rewrite bind_lift_Ok.
  set (d1 := dict_set d "challenge" (PyBytes cb)).
  unfold subscript at 1.
  destruct (dict_get d1 "allowCredentials") as [v|] eqn:Hallow;
    [|by intros [=]].
  rewrite bind_lift_Ok.
  destruct (iterate v) as [creds|e] eqn:Hiter; [|by intros [=]].
  rewrite bind_lift_Ok. unfold bind at 1.
  destruct (for_each (decode_credential_id lib) creds w)
    as [[[creds'|e] w2] t2] eqn:Hfe; [|by intros [=]].
  unfold set_item at 1.
  set (d2 := dict_set d1 "allowCredentials" (PyList creds')).
  unfold bind, lift, ret.
  destruct (lib_parse_obj lib (PyDict d2)) as [o|e] eqn:Hparse;
    [|by intros [=]].
  intros [= <- _ _].
  exists d, d2, c, cb, creds, creds'. repeat split; try done.
  - unfold d2, d1. rewrite dict_get_set_ne by done. apply dict_get_set_eq.
  - exists v. split; [|done]. unfold d1 in Hallow.
    by rewrite dict_get_set_ne in Hallow.
  - apply dict_get_set_eq.
  - by eapply for_each_length.
  - intros k Hk1 Hk2. unfold d2, d1. by rewrite !dict_get_set_ne.
Qed.

End MoreLoad.

(** ** These properties at work on the stand-in libraries *)

Section MoreInstances.

Import Demo.

(** X1 at work. *)
Lemma begin_stores_witness :
  ∃ options w' t,
    generate_authentication_options lib settings "k" "required" [alice]
      (pending "k") = (Ok options, w', t)
    ∧ cache w' !! "k" = Some (lib_options_to_json lib options, 120).
Proof.
  do 3 eexists. split; [vm_compute; reflexivity|].
  edestruct (begin_stores_what_it_returns lib settings "k" "required"
               [alice] (pending "k")) as (uv & allow & x & _ & Hx & _ & Hc);
    [vm_compute; reflexivity|].
  vm_compute in Hx. injection Hx as <-. exact Hc.
Defined.

(** X2 at work: a credential id that does not decode, a record pending. *)
Lemma failed_begin_witness :
  ∃ e w' t,
    generate_authentication_options strict_lib settings "k" "required"
      [damaged] (pending "k") = (Raise e, w', t)
    ∧ cache w' = cache (pending "k").
Proof.
  do 3 eexists. split; [vm_compute; reflexivity|].
  eapply (failed_begin_keeps_cache strict_lib settings "k" "required"
            [damaged] (pending "k")).
  vm_compute. reflexivity.
Defined.

(** X3 at work. *)
Lemma begin_other_keys_witness :
  ∃ r w' t,
    generate_authentication_options lib settings "k" "preferred" [alice]
      two_pending = (r, w', t)
    ∧ cache w' !! "other" = Some ("preferred", 60).
Proof.
  do 3 eexists. split; [vm_compute; reflexivity|].
  etransitivity; [|reflexivity].
  eapply (begin_leaves_other_keys lib settings "k" "preferred" [alice]
            two_pending); [vm_compute; reflexivity|discriminate].
Defined.

(** X5 at work. *)
Lemma generator_arguments_witness :
  ∃ r w' t rp uv allow,
    generate_authentication_options lib settings "k" "preferred" [alice]
      empty_world = (r, w', t)
    ∧ LibGenerate rp uv allow ∈ t
    ∧ rp = "webauthn.io" ∧ "preferred" = requirement_value uv.
Proof.
  do 6 eexists. split; [vm_compute; reflexivity|].
  split; [apply elem_of_cons; left; reflexivity|].
  eapply (generator_gets_rp_id_and_policy lib settings "k" "preferred"
            [alice] empty_world).
  - vm_compute. reflexivity.
  - apply elem_of_cons. left. reflexivity.
Defined.



(** X7 at work: a timeout of 1499 ms is stored with 2 seconds. *)
Lemma stored_expiration_bounds_witness :
  1000 * 2 <= 2 * 1499 < 1000 * 2 + 1000 ∧ (2 = 0 ↔ 1499 < 500).
Proof.
  eapply (stored_expiration_bounds lib "k" (options_with_timeout (Some 1499))
            1499 empty_world).
  - reflexivity.
  - vm_compute. split; [discriminate|reflexivity].
  - vm_compute. reflexivity.
  - apply elem_of_cons. left. reflexivity.
Defined.

(** X8 at work. *)
Lemma finish_as_written_witness :
  ∃ r w' t,
    verify_authentication_response lib settings as_written
      "k" alice good_response (pending "k") = (r, w', t)
    ∧ (∃ e, r = Raise e) ∧ w' = pending "k"
    ∧ (t = [] ∨ t = [CacheRetrieve "k"]).
Proof.
  do 3 eexists. split; [vm_compute; reflexivity|].
  eapply (finish_as_written_never_completes lib settings "k" alice
            good_response (pending "k")).
  vm_compute. reflexivity.
Defined.

(** X9 at work: a completed "finish" for ["k"] beside another record. *)
Lemma finish_other_keys_witness :
  ∃ r w' t,
    verify_authentication_response lib settings bound
      "k" alice good_response two_pending = (r, w', t)
    ∧ cache w' !! "other" = Some ("preferred", 60).
Proof.
  do 3 eexists. split; [vm_compute; reflexivity|].
  edestruct (finish_touches_its_key_only lib settings bound "k" alice
               good_response two_pending) as (_ & Hother & _);
    [vm_compute; reflexivity|].
  rewrite (Hother "other"); [reflexivity|discriminate].
Defined.

(** X10 at work: the load fails at line 143. *)
Lemma load_failure_witness :
  verify_authentication_response lib settings as_written
    "k" alice good_response (pending "k")
  = (Raise unbound, pending "k", [CacheRetrieve "k"]).
Proof.
  eapply (load_failure_keeps_record lib settings as_written "k" alice
            good_response).
  - reflexivity.
  - vm_compute. reflexivity.
Defined.

(** X11 at work: nothing stored, then a record with an empty text. *)
Lemma get_options_witness :
  (∃ r w' t, _get_options lib as_written "k" empty_world = (r, w', t)
             ∧ r = Ok None)
  ∧ (∃ r w' t,
       _get_options lib bound "k"
         (stored "k" "" 120 empty_world) = (r, w', t)
       ∧ r ≠ Ok None).
Proof.
  split.
  - do 3 eexists. split; [vm_compute; reflexivity|].
    eapply (get_options_None_iff_absent lib as_written "k" empty_world);
      [vm_compute; reflexivity|reflexivity].
  - do 3 eexists. split; [vm_compute; reflexivity|].
    intros Hnone.
    eapply (get_options_None_iff_absent lib bound "k"
              (stored "k" "" 120 empty_world)) in Hnone;
      [|vm_compute; reflexivity].
    discriminate Hnone.
Defined.

(** X12 at work. *)
Lemma verifier_arguments_witness :
  ∃ r w' t args,
    verify_authentication_response lib settings bound
      "k" alice mallory_response (pending "k") = (r, w', t)
    ∧ LibVerify args ∈ t
    ∧ va_expected_rp_id args = "webauthn.io"
    ∧ va_expected_origin args = "https://webauthn.io"
    ∧ va_credential_current_sign_count args = 7.
Proof.
  do 4 eexists. split; [vm_compute; reflexivity|].
  split.
  { apply elem_of_cons. right. apply elem_of_cons. right.
    apply elem_of_cons. left. reflexivity. }
  edestruct (verifier_gets_stored_values lib settings bound "k" alice
               mallory_response (pending "k"))
    as (options & _ & _ & _ & Hrp & Horigin & _ & Hcount).
  - vm_compute. reflexivity.
  - apply elem_of_cons. right. apply elem_of_cons. right.
    apply elem_of_cons. left. reflexivity.
  - split; [exact Hrp|]. split; [exact Horigin|exact Hcount].
Defined.

(** X13 at work: the verifier rejects, and the record is gone. *)
Lemma verifier_after_delete_witness :
  ∃ r w' t args,
    verify_authentication_response strict_lib settings bound
      "k" alice good_response (pending "k") = (r, w', t)
    ∧ LibVerify args ∈ t
    ∧ t = [CacheRetrieve "k"; CacheDelete "k"; LibVerify args]
    ∧ cache w' = delete "k" (cache (pending "k"))
    ∧ r = Raise (LibraryError "InvalidAuthenticationResponse").
Proof.
  do 4 eexists. split; [vm_compute; reflexivity|].
  split.
  { apply elem_of_cons. right. apply elem_of_cons. right.
    apply elem_of_cons. left. reflexivity. }
  edestruct (verifier_is_called_after_delete strict_lib settings bound "k"
               alice good_response (pending "k")) as (Ht & Hc & Hr).
  - vm_compute. reflexivity.
  - apply elem_of_cons. right. apply elem_of_cons. right.
    apply elem_of_cons. left. reflexivity.
  - split; [exact Ht|]. split; [exact Hc|]. reflexivity.
Defined.

(** X14 at work: the stored public key does not decode. *)
Lemma undecodable_public_key_witness :
  verify_authentication_response strict_lib settings bound
    "k" damaged good_response (pending "k")
  = (Raise (LibraryError "binascii.Error"), without "k" (pending "k"),
     [CacheRetrieve "k"; CacheDelete "k"]).
Proof.
  eapply (undecodable_public_key_consumes_record strict_lib settings bound
            "k" damaged good_response).
  - reflexivity.
  - vm_compute. reflexivity.
  - reflexivity.
Defined.

(** X15 at work: a decoder that yields no ["allowCredentials"]. *)
Lemma record_without_allow_credentials_witness :
  _get_options lib bare "k" (pending "k")
  = (Raise (KeyError "allowCredentials"), pending "k", [CacheRetrieve "k"]).
Proof.
  eapply (record_without_allow_credentials lib bare bare_loads "k"
            "required" 120); reflexivity.
Defined.

(** X16 at work. *)
Lemma begin_then_finish_witness :
  ∃ options w1 t,
    generate_authentication_options lib settings "k" "required" [alice]
      empty_world = (Ok options, w1, t)
    ∧ verify_authentication_response lib settings as_written
        "k" alice good_response w1
      = (Raise unbound, w1, [CacheRetrieve "k"]).
Proof.
  do 3 eexists. split; [vm_compute; reflexivity|].
  edestruct (begin_then_finish_as_written lib settings "k" "required"
               [alice] alice good_response) with (w := empty_world)
    as (expiration & _ & Hrun);
    [vm_compute; reflexivity|reflexivity|exact Hrun].
Defined.

(** X17 at work. *)
Lemma huge_timeout_witness :
  _save_options lib "k" (options_with_timeout (Some (2 ^ 1034)))
    (pending "k")
  = (Raise OverflowError, pending "k", []).
Proof.
  apply (huge_timeout_is_not_stored lib "k"
           (options_with_timeout (Some (2 ^ 1034))) (2 ^ 1034)).
  - reflexivity.
  - vm_compute. discriminate.
Defined.

(** X18 at work: an entry with a type and an id. *)
Lemma decoded_credential_witness :
  ∃ cred' w' t d',
    decode_credential_id lib
      (PyDict [("type", PyStr "public-key"); ("id", PyStr "AQID")])
      empty_world = (Ok cred', w', t)
    ∧ cred' = PyDict d'
    ∧ d'.*1 = ["type"; "id"]
    ∧ dict_get d' "type" = Some (PyStr "public-key").
Proof.
  do 3 eexists.
  edestruct (decoded_credential_keeps_other_fields lib
               (PyDict [("type", PyStr "public-key"); ("id", PyStr "AQID")]))
    with (w := empty_world)
    as (d & d' & i & b & Hd & Hd' & _ & _ & _ & Hkeys & Hother);
    [vm_compute; reflexivity|].
  exists d'. injection Hd as <-. split; [vm_compute; reflexivity|].
  split; [exact Hd'|]. split; [exact Hkeys|].
  by rewrite (Hother "type").
Defined.

(** X19 at work: the policy entry reaches [parse_obj] untouched. *)
Lemma loader_witness :
  ∃ options w' t d',
    _get_options lib bound "k" (pending "k") = (Ok (Some options), w', t)
    ∧ lib_parse_obj lib (PyDict d') = Ok options
    ∧ dict_get d' "userVerification" = Some (PyStr "required").
Proof.
  do 3 eexists.
  edestruct (loader_changes_two_fields lib bound loads "k" "required" 120)
    with (w := pending "k")
    as (d & d' & c & cb & creds & creds' & Hd & Hparse & _ & _ & _ & _ & _
        & _ & Hother);
    [reflexivity|reflexivity|vm_compute; reflexivity|].
  exists d'. split; [vm_compute; reflexivity|]. split; [exact Hparse|].
  injection Hd as <-. by rewrite (Hother "userVerification").
Defined.

End MoreInstances.
